(** * jwfoods: the delivery-cost backend (app.py)

    A shallow embedding of the request handlers of [app.py] and of the
    three tables they read and write, followed by the properties of the
    specification that concern them.

    Conventions of the model.
    - A request body is the Python value returned by [request.get_json()];
      JSON numbers are [int], [float] (IEEE binary64, Rocq's primitive
      floats) or [bool], exactly as Python's [json] module produces them.
    - A Python [str] is a [string] whose characters are code points below
      256.
    - Exceptions are explicit: a computation returns [Ok v] or [Raise e],
      and every handler ends in the [try ... except] of the source.
    - The store is the SQLite file that the source falls back to when
      [DATABASE_URL] is not set.  Its three tables are lists of rows in
      insertion order.  A [db.Float] column holds a float: SQLAlchemy binds
      [float(v)] for the value [v] of the attribute, and SQLite keeps a
      NaN as NULL, which a column declared [nullable=False] refuses with
      [IntegrityError], and keeps a negative zero as zero.
    - The tables are created by [flask init-db] only.  [get_coefficients]
      is given the store as the route finds it, with or without its
      tables; the other handlers are given the tables, and their
      properties are those of a store that has been initialized.
    - [datetime.utcnow()] is the argument [now] of a handler. *)

From Stdlib Require Import ZArith List String Ascii Bool Lia Floats.
From Stdlib Require Import Permutation Sorted.
Import ListNotations.

Set Implicit Arguments.
Set Warnings "-register-all,-inexact-float".
Open Scope bool_scope.
Open Scope string_scope.
Open Scope Z_scope.
Open Scope list_scope.

(** ** Python builtins used by the handlers *)

Module Py.

(** The exceptions the handlers can meet; the last two are those of the
    store, [sqlalchemy.exc.IntegrityError] and
    [sqlalchemy.exc.OperationalError]. *)
Inductive exn : Set :=
| TypeError
| AttributeError
| OverflowError
| ValueError
| IntegrityError
| OperationalError.

Inductive result (A : Type) : Type :=
| Ok (a : A)
| Raise (e : exn).

Arguments Ok {A} a.
Arguments Raise {A} e.

Definition bind {A B : Type} (r : result A) (k : A -> result B) : result B :=
  match r with
  | Ok a => k a
  | Raise e => Raise e
  end.

(** *** Strings *)

Definition code (c : ascii) : Z := Z.of_N (N_of_ascii c).

(** [str.isspace] on the code points below 256. *)
Definition is_space (c : ascii) : bool :=
  let n := code c in
  ((9 <=? n) && (n <=? 13)) || ((28 <=? n) && (n <=? 32))
  || (n =? 133) || (n =? 160).

Definition is_digit (c : ascii) : bool :=
  let n := code c in (48 <=? n) && (n <=? 57).

Fixpoint lstrip (s : string) : string :=
  match s with
  | String c s' => if is_space c then lstrip s' else s
  | EmptyString => EmptyString
  end.

Fixpoint rstrip (s : string) : string :=
  match s with
  | String c s' =>
      match rstrip s' with
      | EmptyString => if is_space c then EmptyString else String c EmptyString
      | t => String c t
      end
  | EmptyString => EmptyString
  end.

(** [s.strip()] *)
Definition strip (s : string) : string := rstrip (lstrip s).

(** [c in s] for a one-character [c]. *)
Fixpoint contains (c : ascii) (s : string) : bool :=
  match s with
  | String d s' => Ascii.eqb c d || contains c s'
  | EmptyString => false
  end.

Definition is_empty (s : string) : bool :=
  match s with
  | EmptyString => true
  | String _ _ => false
  end.

Definition lower (c : ascii) : ascii :=
  let n := code c in
  if (65 <=? n) && (n <=? 90) then ascii_of_N (Z.to_N (n + 32)) else c.

Fixpoint lowercase (s : string) : string :=
  match s with
  | String c s' => String (lower c) (lowercase s')
  | EmptyString => EmptyString
  end.

(** *** Floats *)

(** [float(z)] for an [int]: the nearest double, ties to even;
    [OverflowError] when that is out of range. *)
Definition float_of_int (z : Z) : result float :=
  let f := SF2Prim (binary_normalize prec emax z 0 false) in
  if is_infinity f then Raise OverflowError else Ok f.

Definition half_even_div (a d : Z) : Z :=
  let q := a / d in
  let r := a mod d in
  if (d <? 2 * r) || ((d =? 2 * r) && Z.odd q) then q + 1 else q.

(** The exact value [m * 2^e] in hundredths, rounded half to even. *)
Definition hundredths (m : positive) (e : Z) : Z :=
  if 0 <=? e then 100 * Z.pos m * 2 ^ e
  else half_even_div (100 * Z.pos m) (2 ^ (- e)).

(** [round(x, 2)] on a float: the decimal with two places nearest to the
    exact value of [x] (ties to even), read back as the nearest double;
    infinities and NaN round to themselves, the sign of zero is kept. *)
Definition round2 (x : float) : float :=
  match Prim2SF x with
  | S754_finite s m e =>
      match hundredths m e with
      | Z.pos n =>
          SF2Prim (SFdiv prec emax (S754_finite s n 0) (S754_finite false 100 0))
      | _ => if s then neg_zero else zero
      end
  | _ => x
  end.

(** The white space that [float] drops around a numeral: the ASCII white
    space of C, and the two other spaces below 256, which CPython turns
    into blanks first.  The separators 28 to 31, which [str.strip] drops,
    are not among them. *)
Definition is_float_space (c : ascii) : bool :=
  let n := code c in
  ((9 <=? n) && (n <=? 13)) || (n =? 32) || (n =? 133) || (n =? 160).

Fixpoint float_lstrip (s : string) : string :=
  match s with
  | String c s' => if is_float_space c then float_lstrip s' else s
  | EmptyString => EmptyString
  end.

Fixpoint float_rstrip (s : string) : string :=
  match s with
  | String c s' =>
      match float_rstrip s' with
      | EmptyString =>
          if is_float_space c then EmptyString else String c EmptyString
      | t => String c t
      end
  | EmptyString => EmptyString
  end.

(** [float(s)] on a [str], after CPython's [float_from_string_inner]:
    surrounding white space is dropped, an underscore may stand between two
    digits, and what remains is a signed decimal numeral with an optional
    exponent, or [inf], [infinity] or [nan] in any case. *)
Fixpoint drop_underscores (prev : ascii) (s : string) : option string :=
  match s with
  | EmptyString => if Ascii.eqb prev "_" then None else Some EmptyString
  | String c s' =>
      if Ascii.eqb c "_" then
        if is_digit prev then drop_underscores c s' else None
      else if Ascii.eqb prev "_" && negb (is_digit c) then None
      else option_map (String c) (drop_underscores c s')
  end.

Fixpoint span_digits (s : string) : list Z * string :=
  match s with
  | String c s' =>
      if is_digit c
      then let (ds, r) := span_digits s' in (code c - 48 :: ds, r)
      else ([], s)
  | EmptyString => ([], EmptyString)
  end.

Definition digits_value (ds : list Z) : Z :=
  fold_left (fun a d => 10 * a + d) ds 0.

Definition take_sign (s : string) : bool * string :=
  match s with
  | String "-" s' => (true, s')
  | String "+" s' => (false, s')
  | _ => (false, s)
  end.

(** The double nearest to [m * 10^e] ([m >= 0]), with sign [neg]. *)
Definition decimal_to_float (neg : bool) (m e : Z) : float :=
  match m with
  | Z.pos p =>
      if 0 <=? e
      then SF2Prim (binary_normalize prec emax
                      ((if neg then Z.neg p else Z.pos p) * 10 ^ e) 0 neg)
      else SF2Prim (SFdiv prec emax (S754_finite neg p 0)
                      (S754_finite false (Z.to_pos (10 ^ (- e))) 0))
  | _ => if neg then neg_zero else zero
  end.

Definition parse_exponent (s : string) : option Z :=
  match s with
  | EmptyString => Some 0
  | String c s' =>
      if Ascii.eqb (lower c) "e" then
        let (neg, t) := take_sign s' in
        match span_digits t with
        | ((_ :: _) as ds, EmptyString) =>
            Some (if neg then - digits_value ds else digits_value ds)
        | _ => None
        end
      else None
  end.

Definition parse_decimal (neg : bool) (s : string) : option float :=
  let (ip, r) := span_digits s in
  let (fp, r') :=
    match r with
    | String "." t => span_digits t
    | _ => ([], r)
    end in
  match (ip ++ fp)%list with
  | [] => None
  | ds =>
      match parse_exponent r' with
      | Some e =>
          Some (decimal_to_float neg (digits_value ds)
                  (e - Z.of_nat (List.length fp)))
      | None => None
      end
  end.

Definition parse_inf_or_nan (neg : bool) (s : string) : option float :=
  let t := lowercase s in
  if String.eqb t "inf" || String.eqb t "infinity"
  then Some (if neg then neg_infinity else infinity)
  else if String.eqb t "nan" then Some nan
  else None.

Definition float_of_str (s : string) : result float :=
  match drop_underscores " " (float_rstrip (float_lstrip s)) with
  | None => Raise ValueError
  | Some t =>
      let (neg, u) := take_sign t in
      let parsed :=
        match u with
        | String c _ =>
            if is_digit c || Ascii.eqb c "." then parse_decimal neg u
            else parse_inf_or_nan neg u
        | EmptyString => None
        end in
      match parsed with
      | Some f => Ok f
      | None => Raise ValueError
      end
  end.

(** *** Values *)

(** What [json.loads] can return. *)
Inductive value : Type :=
| VNone
| VBool (b : bool)
| VInt (z : Z)
| VFloat (f : float)
| VStr (s : string)
| VList (l : list value)
| VDict (items : list (string * value)).

(** [bool(v)] *)
Definition truthy (v : value) : bool :=
  match v with
  | VNone => false
  | VBool b => b
  | VInt z => negb (z =? 0)
  | VFloat f => negb (f =? 0)%float
  | VStr s => negb (is_empty s)
  | VList l => match l with [] => false | _ => true end
  | VDict d => match d with [] => false | _ => true end
  end.

Definition is_none (v : value) : bool :=
  match v with
  | VNone => true
  | _ => false
  end.

Fixpoint lookup {A : Type} (key : string) (items : list (string * A)) : option A :=
  match items with
  | [] => None
  | (k, v) :: rest => if String.eqb key k then Some v else lookup key rest
  end.

(** [data.get(key, default)]: only a [dict] has the method. *)
Definition get (data : value) (key : string) (default : value) : result value :=
  match data with
  | VDict items =>
      Ok (match lookup key items with
          | Some v => v
          | None => default
          end)
  | _ => Raise AttributeError
  end.

(** [v.strip()]: only a [str] has the method. *)
Definition strip_value (v : value) : result string :=
  match v with
  | VStr s => Ok (strip s)
  | _ => Raise AttributeError
  end.

(** [v <= 0] *)
Definition le0 (v : value) : result bool :=
  match v with
  | VBool b => Ok (negb b)
  | VInt z => Ok (z <=? 0)
  | VFloat f => Ok (f <=? 0)%float
  | _ => Raise TypeError
  end.

(** The operand [v] of [c * v] for a float [c], as a float. *)
Definition as_float (v : value) : result float :=
  match v with
  | VBool b => Ok (if b then one else zero)
  | VInt z => float_of_int z
  | VFloat f => Ok f
  | _ => Raise TypeError
  end.

(** [c * v] for a float [c]. *)
Definition fmul (c : float) (v : value) : result float :=
  bind (as_float v) (fun f => Ok (c * f)%float).

(** A number of JSON: [int], [float] or [bool] ([bool] is a subclass of
    [int]). *)
Definition is_number (v : value) : bool :=
  match v with
  | VBool _ | VInt _ | VFloat _ => true
  | _ => false
  end.

(** [v > 0] for a number [v]. *)
Definition positive (v : value) : bool :=
  match v with
  | VBool b => b
  | VInt z => 0 <? z
  | VFloat f => (0 <? f)%float
  | _ => false
  end.

(** [v <= 0] for a number [v]. *)
Definition nonpositive (v : value) : bool :=
  match v with
  | VBool b => negb b
  | VInt z => z <=? 0
  | VFloat f => (f <=? 0)%float
  | _ => false
  end.

(** [float(v)] *)
Definition to_float (v : value) : result float :=
  match v with
  | VBool b => Ok (if b then one else zero)
  | VInt z => float_of_int z
  | VFloat f => Ok f
  | VStr s => float_of_str s
  | _ => Raise TypeError
  end.

(** [f == z] for a float and an [int]: the two are compared as exact
    numbers. *)
Definition float_eqb_int (f : float) (z : Z) : bool :=
  match Prim2SF f with
  | S754_zero _ => z =? 0
  | S754_finite s m e =>
      let n := if s then Z.neg m else Z.pos m in
      if 0 <=? e then n * 2 ^ e =? z else n =? z * 2 ^ (- e)
  | _ => false
  end.

End Py.

Import Py.

Notation "x <- e ;; k" := (Py.bind e (fun x => k))
  (at level 61, e at next level, right associativity).

(** ** The store: the three models and their tables *)

Record DeliveryCoefficients : Type := {
  coefficients_id : Z;
  distance_coefficient : float;
  weight_coefficient : float;
  base_cost : float;
  updated_at : Z
}.

Record ContactSubmission : Type := {
  submission_id : Z;
  name : string;
  email : string;
  phone : option string;
  message : string;
  submitted_at : Z
}.

(** The three [db.Float] columns hold floats, whatever numbers the handler
    passed to the constructor. *)
Record DeliveryCalculation : Type := {
  calculation_id : Z;
  distance : float;
  weight : float;
  calculated_cost : float;
  calculated_at : Z
}.

Record DB : Type := {
  delivery_coefficients : list DeliveryCoefficients;
  contact_submissions : list ContactSubmission;
  delivery_calculations : list DeliveryCalculation
}.

(** The store as a route finds it: the file has no tables until
    [flask init-db] has run. *)
Inductive database : Type :=
| NoTables
| Tables (db : DB).

(** [db.drop_all(); db.create_all()] *)
Definition empty_db : DB :=
  {| delivery_coefficients := [];
     contact_submissions := [];
     delivery_calculations := [] |}.

(** The next value of an integer primary key. *)
Definition next_id {A : Type} (id : A -> Z) (rows : list A) : Z :=
  1 + fold_right (fun r m => Z.max (id r) m) 0 rows.

(** [Model.query.first()] *)
Definition first {A : Type} (rows : list A) : option A := hd_error rows.

(** [query.order_by(key.desc())]: rows with equal keys keep the order of
    the table. *)
Fixpoint insert_desc {A : Type} (key : A -> Z) (x : A) (rows : list A) : list A :=
  match rows with
  | [] => [x]
  | y :: rest =>
      if key y <=? key x then x :: rows else y :: insert_desc key x rest
  end.

Definition order_by_desc {A : Type} (key : A -> Z) (rows : list A) : list A :=
  fold_right (insert_desc key) [] rows.

(** [x] may stand before [y] in a descending order on [key]. *)
Definition desc {A : Type} (key : A -> Z) (x y : A) : Prop := key y <= key x.

(** [query.limit(n).all()] *)
Definition limit {A : Type} (n : nat) (rows : list A) : list A := firstn n rows.

Record Pagination (A : Type) : Type := {
  items : list A;
  page : Z;
  per_page : nat;
  total : nat
}.

(** [query.paginate(page=page, per_page=per_page, error_out=False)]: a
    page below 1 is read as page 1, and a page past the end is empty. *)
Definition paginate {A : Type} (page : Z) (per_page : nat) (rows : list A)
  : Pagination A :=
  let page := if page <? 1 then 1 else page in
  {| items := firstn per_page (skipn (Z.to_nat (page - 1) * per_page) rows);
     page := page;
     per_page := per_page;
     total := List.length rows |}.

(** [Model.query.first()] on the coefficients of a store whose tables may
    be missing: without the table the query fails. *)
Definition first_coefficients (s : database) : result (option DeliveryCoefficients) :=
  match s with
  | NoTables => Raise OperationalError
  | Tables db => Ok (first (delivery_coefficients db))
  end.

(** The float that SQLite gives back for a float it has stored: a negative
    zero comes back as zero. *)
Definition sqlite_real (f : float) : float :=
  if (f =? 0)%float then zero else f.

(** A float written to a [db.Float, nullable=False] column: SQLite stores
    a NaN as NULL, which the column refuses. *)
Definition store_float (f : float) : result float :=
  if is_nan f then Raise IntegrityError else Ok (sqlite_real f).

(** The parameter that SQLAlchemy binds for the value [v] of a [db.Float]
    attribute: [float(v)]; [None] is bound as NULL, which the column
    refuses. *)
Definition bind_float (v : value) : result float :=
  match v with
  | VNone => Raise IntegrityError
  | _ => to_float v
  end.

(** The row that the commit writes for
    [DeliveryCalculation(distance=..., weight=..., calculated_cost=...)]:
    the parameters are bound first, then SQLite checks the columns. *)
Definition calculation_row (id : Z) (distance weight : value)
    (calculated_cost : float) (now : Z) : result DeliveryCalculation :=
  d <- bind_float distance ;;
  w <- bind_float weight ;;
  d <- store_float d ;;
  w <- store_float w ;;
  c <- store_float calculated_cost ;;
  Ok {| calculation_id := id;
        distance := d;
        weight := w;
        calculated_cost := c;
        calculated_at := now |}.

(** The row that the commit writes for the three coefficients. *)
Definition coefficients_row (id : Z) (distance_coeff weight_coeff base : float)
    (now : Z) : result DeliveryCoefficients :=
  dc <- store_float distance_coeff ;;
  wc <- store_float weight_coeff ;;
  bc <- store_float base ;;
  Ok {| coefficients_id := id;
        distance_coefficient := dc;
        weight_coefficient := wc;
        base_cost := bc;
        updated_at := now |}.

(** The tables after [db.session.add(row); db.session.commit()] has
    written a row, and after the commit has written the rows of the
    coefficients anew. *)
Definition add_coefficients (c : DeliveryCoefficients) (db : DB) : DB :=
  {| delivery_coefficients := delivery_coefficients db ++ [c];
     contact_submissions := contact_submissions db;
     delivery_calculations := delivery_calculations db |}.

Definition add_submission (c : ContactSubmission) (db : DB) : DB :=
  {| delivery_coefficients := delivery_coefficients db;
     contact_submissions := contact_submissions db ++ [c];
     delivery_calculations := delivery_calculations db |}.

Definition add_calculation (c : DeliveryCalculation) (db : DB) : DB :=
  {| delivery_coefficients := delivery_coefficients db;
     contact_submissions := contact_submissions db;
     delivery_calculations := delivery_calculations db ++ [c] |}.

Definition set_coefficients (rows : list DeliveryCoefficients) (db : DB) : DB :=
  {| delivery_coefficients := rows;
     contact_submissions := contact_submissions db;
     delivery_calculations := delivery_calculations db |}.

(** ** Responses *)

Inductive flash : Type :=
| Flash (msg : string) (category : string)
| FlashFailed (prefix : string) (e : exn) (category : string).

Inductive context : Type :=
| AdminContext (coefficients : option DeliveryCoefficients)
               (calculations : list DeliveryCalculation)
               (contacts : list ContactSubmission)
| CalculationsContext (calculations : option (Pagination DeliveryCalculation))
| ContactsContext (contacts : option (Pagination ContactSubmission))
| NoContext.

Inductive body : Type :=
| Error (msg : string)
| Failed (prefix : string) (e : exn)
| Calculated (cost : float) (distance weight : value)
             (distance_coefficient weight_coefficient base_cost : float)
| Submitted (msg : string) (submission_id : Z)
| Coefficients (c : DeliveryCoefficients)
| Health (timestamp : Z) (database : string)
| Redirect (endpoint : string) (flashed : flash)
| Template (template : string) (ctx : context).

Record response : Type := {
  content : body;
  status : Z
}.

(** [jsonify(b), code], [jsonify(b)], [redirect(url_for(endpoint))] after a
    [flash], and [render_template]. *)
Definition json (b : body) (code : Z) : response :=
  {| content := b; status := code |}.

Definition json_ok (b : body) : response := json b 200.

Definition redirect (endpoint : string) (f : flash) : response :=
  {| content := Redirect endpoint f; status := 302 |}.

Definition render_template (template : string) (ctx : context) : response :=
  {| content := Template template ctx; status := 200 |}.

(** ** The initialization command *)

(** The default row; the store keeps its three floats as they are. *)
Definition default_coeffs (now : Z) (db : DB) : DeliveryCoefficients :=
  {| coefficients_id := next_id coefficients_id (delivery_coefficients db);
     distance_coefficient := 0.5;
     weight_coefficient := 0.5;
     base_cost := 5.0;
     updated_at := now |}.

Definition init_db_command (now : Z) (db : DB) : DB :=
  let db := empty_db in
  match first (delivery_coefficients db) with
  | None => add_coefficients (default_coeffs now db) db
  | Some _ => db
  end.


(** ** API routes *)

Definition calculate_delivery_try (data : value) (now : Z) (db : DB)
  : result (response * DB) :=
  if negb (truthy data) then
    Ok (json (Error "No data provided") 400, db)
  else
    distance <- get data "distance" VNone ;;
    weight <- get data "weight" VNone ;;
    if is_none distance || is_none weight then
      Ok (json (Error "Distance and weight are required") 400, db)
    else
      nonpositive <- (d <- le0 distance ;; if d then Ok true else le0 weight) ;;
      if (nonpositive : bool) then
        Ok (json (Error "Distance and weight must be positive values") 400, db)
      else
        match first (delivery_coefficients db) with
        | None =>
            Ok (json (Error "Delivery coefficients not configured. Please initialize the database.") 500, db)
        | Some coeffs =>
            by_distance <- fmul (distance_coefficient coeffs) distance ;;
            by_weight <- fmul (weight_coefficient coeffs) weight ;;
            let calculated_cost :=
              round2 (base_cost coeffs + by_distance + by_weight)%float in
            calculation <-
              calculation_row (next_id calculation_id (delivery_calculations db))
                distance weight calculated_cost now ;;
            Ok (json_ok (Calculated calculated_cost distance weight
                           (distance_coefficient coeffs)
                           (weight_coefficient coeffs)
                           (base_cost coeffs)),
                add_calculation calculation db)
        end.

Definition calculate_delivery (data : value) (now : Z) (db : DB) : response * DB :=
  match calculate_delivery_try data now db with
  | Ok r => r
  | Raise e => (json (Failed "Calculation failed: " e) 500, db)
  end.

(** The check of the source on the trimmed address. *)
Definition email_ok (email : string) : bool :=
  negb (negb (contains "@" email) || negb (contains "." email)).

Definition submit_contact_try (data : value) (now : Z) (db : DB)
  : result (response * DB) :=
  if negb (truthy data) then
    Ok (json (Error "No data provided") 400, db)
  else
    name <- (v <- get data "name" (VStr "") ;; strip_value v) ;;
    email <- (v <- get data "email" (VStr "") ;; strip_value v) ;;
    phone <- (v <- get data "phone" (VStr "") ;; strip_value v) ;;
    message <- (v <- get data "message" (VStr "") ;; strip_value v) ;;
    if is_empty name || is_empty email || is_empty message then
      Ok (json (Error "Name, email, and message are required") 400, db)
    else if negb (contains "@" email) || negb (contains "." email) then
      Ok (json (Error "Please provide a valid email address") 400, db)
    else
      let submission :=
        {| submission_id := next_id submission_id (contact_submissions db);
           name := name;
           email := email;
           phone := if is_empty phone then None else Some phone;
           message := message;
           submitted_at := now |} in
      Ok (json_ok (Submitted "Thank you for your message! We'll get back to you soon."
                     (submission_id submission)),
          add_submission submission db).

Definition submit_contact (data : value) (now : Z) (db : DB) : response * DB :=
  match submit_contact_try data now db with
  | Ok r => r
  | Raise e => (json (Failed "Failed to submit contact form: " e) 500, db)
  end.

Definition get_coefficients_try (s : database) : result response :=
  coeffs <- first_coefficients s ;;
  match coeffs with
  | None =>
      Ok (json (Error "No coefficients found. Please initialize the database.") 404)
  | Some coeffs => Ok (json_ok (Coefficients coeffs))
  end.

Definition get_coefficients (s : database) : response :=
  match get_coefficients_try s with
  | Ok r => r
  | Raise e => json (Failed "Failed to get coefficients: " e) 500
  end.

(** ** Admin routes *)

Definition admin_dashboard (db : DB) : response :=
  let coeffs := first (delivery_coefficients db) in
  let recent_calculations :=
    limit 10 (order_by_desc calculated_at (delivery_calculations db)) in
  let recent_contacts :=
    limit 10 (order_by_desc submitted_at (contact_submissions db)) in
  render_template "admin.html"
    (AdminContext coeffs recent_calculations recent_contacts).

(** [float(request.form.get(key, default))] *)
Definition form_float (form : list (string * string)) (key : string)
    (default : float) : result float :=
  match lookup key form with
  | Some s => float_of_str s
  | None => Ok default
  end.

Definition update_coefficients_try (form : list (string * string)) (now : Z)
    (db : DB) : result (response * DB) :=
  distance_coeff <- form_float form "distance_coefficient" 0.5 ;;
  weight_coeff <- form_float form "weight_coefficient" 0.5 ;;
  base <- form_float form "base_cost" 5.0 ;;
  if (distance_coeff <? 0)%float || (weight_coeff <? 0)%float || (base <? 0)%float then
    Ok (redirect "admin_dashboard"
          (Flash "All coefficients must be positive values" "error"), db)
  else
    db' <-
      match delivery_coefficients db with
      | coeffs :: rest =>
          coeffs <-
            coefficients_row (coefficients_id coeffs)
              distance_coeff weight_coeff base now ;;
          Ok (set_coefficients (coeffs :: rest) db)
      | [] =>
          coeffs <-
            coefficients_row (next_id coefficients_id (delivery_coefficients db))
              distance_coeff weight_coeff base now ;;
          Ok (add_coefficients coeffs db)
      end ;;
    Ok (redirect "admin_dashboard"
          (Flash "Coefficients updated successfully!" "success"), db').

Definition update_coefficients (form : list (string * string)) (now : Z)
    (db : DB) : response * DB :=
  match update_coefficients_try form now db with
  | Ok r => r
  | Raise ValueError =>
      (redirect "admin_dashboard"
         (Flash "Please enter valid numeric values" "error"), db)
  | Raise e =>
      (redirect "admin_dashboard"
         (FlashFailed "Error updating coefficients: " e "error"), db)
  end.

(** The fields of the form with the defaults of the handler. *)
Definition coefficient_fields : list (string * float) :=
  [("distance_coefficient", 0.5%float);
   ("weight_coefficient", 0.5%float);
   ("base_cost", 5.0%float)].

(** [request.args.get('page', 1, type=int)]: [page_arg] is the parameter
    converted by [int], [None] when it is absent or is not an integer. *)
Definition page_of (page_arg : option Z) : Z :=
  match page_arg with
  | Some p => p
  | None => 1
  end.

Definition admin_calculations (page_arg : option Z) (db : DB) : response :=
  let page := page_of page_arg in
  let calculations :=
    paginate page 20 (order_by_desc calculated_at (delivery_calculations db)) in
  render_template "calculations.html" (CalculationsContext (Some calculations)).

Definition admin_contacts (page_arg : option Z) (db : DB) : response :=
  let page := page_of page_arg in
  let contacts :=
    paginate page 20 (order_by_desc submitted_at (contact_submissions db)) in
  render_template "contacts.html" (ContactsContext (Some contacts)).

Definition index : response := render_template "index.html" NoContext.

Definition health_check (now : Z) : response :=
  json_ok (Health now "connected").

(** ** The HTTP surface *)

Inductive request : Type :=
| PostCalculateDelivery (data : value)
| PostContact (data : value)
| GetCoefficients
| GetAdmin
| PostUpdateCoefficients (form : list (string * string))
| GetAdminCalculations (page_arg : option Z)
| GetAdminContacts (page_arg : option Z)
| GetIndex
| GetHealth.

Definition handle (r : request) (now : Z) (db : DB) : response * DB :=
  match r with
  | PostCalculateDelivery data => calculate_delivery data now db
  | PostContact data => submit_contact data now db
  | GetCoefficients => (get_coefficients (Tables db), db)
  | GetAdmin => (admin_dashboard db, db)
  | PostUpdateCoefficients form => update_coefficients form now db
  | GetAdminCalculations page_arg => (admin_calculations page_arg db, db)
  | GetAdminContacts page_arg => (admin_contacts page_arg db, db)
  | GetIndex => (index, db)
  | GetHealth => (health_check now, db)
  end.

(** The store after a sequence of requests, each with its time. *)
Fixpoint serve (rs : list (request * Z)) (db : DB) : DB :=
  match rs with
  | [] => db
  | (r, now) :: rest => serve rest (snd (handle r now db))
  end.

(** Every operation of the system: a request, or the initialization
    command run from the command line. *)
Inductive operation : Type :=
| Serve (r : request)
| InitDb.

Definition perform (op : operation) (now : Z) (db : DB) : DB :=
  match op with
  | Serve r => snd (handle r now db)
  | InitDb => init_db_command now db
  end.

(** ** Sample requests and stores *)

(** The store right after [flask init-db]. *)
Definition seeded_db : DB := init_db_command 0 empty_db.

(** [{"distance": 10, "weight": 2}] *)
Definition sample_body : value :=
  VDict [("distance", VInt 10); ("weight", VInt 2)].

(** [{"distance": "abc", "weight": -1}] *)
Definition text_distance_body : value :=
  VDict [("distance", VStr "abc"); ("weight", VInt (-1))].

(** [{"distance": 10, "weight": "heavy"}] *)
Definition text_weight_body : value :=
  VDict [("distance", VInt 10); ("weight", VStr "heavy")].

(** [{"distance": 0, "weight": 2}] *)
Definition zero_distance_body : value :=
  VDict [("distance", VInt 0); ("weight", VInt 2)].

(** [{"name": "Ann", "email": e, "message": "Hello"}] *)
Definition contact_body (e : string) : value :=
  VDict [("name", VStr "Ann"); ("email", VStr e); ("message", VStr "Hello")].

(** The seeded store after [n] calculations, one per second. *)
Definition calculations_db (n : nat) : DB :=
  serve (map (fun t => (PostCalculateDelivery sample_body, Z.of_nat t)) (seq 1 n))
    seeded_db.

(** The seeded store after one calculation and one contact submission. *)
Definition used_db : DB :=
  serve [(PostCalculateDelivery sample_body, 1);
         (PostContact (contact_body "a@b.com"), 2)] seeded_db.

(** The form of the admin page with three values. *)
Definition coefficients_form (dc wc bc : string) : list (string * string) :=
  [("distance_coefficient", dc); ("weight_coefficient", wc); ("base_cost", bc)].

(** ** Configuration *)

(** [s.startswith(prefix)] *)
Definition startswith (s prefix : string) : bool := String.prefix prefix s.

Fixpoint drop (n : nat) (s : string) : string :=
  match n, s with
  | O, _ => s
  | S n', String _ s' => drop n' s'
  | S _, EmptyString => EmptyString
  end.

(** [s.replace(old, new, 1)]: the first occurrence of [old], from the
    left, becomes [new]. *)
Fixpoint replace_first (old new s : string) {struct s} : string :=
  if String.prefix old s then (new ++ drop (String.length old) s)%string
  else
    match s with
    | EmptyString => EmptyString
    | String c s' => String c (replace_first old new s')
    end.

(** The value of [SQLALCHEMY_DATABASE_URI]: [env_url] is the variable
    [DATABASE_URL] of the environment, [sqlite_url] the address of the
    local file the source falls back to. *)
Definition database_uri (env_url : option string) (sqlite_url : string) : string :=
  let database_url :=
    match env_url with
    | Some url => url
    | None => sqlite_url
    end in
  if startswith database_url "postgres://"
  then replace_first "postgres://" "postgresql://" database_url
  else database_url.

(** ** What the templates are given *)

Definition listed_calculations (r : response) : list DeliveryCalculation :=
  match content r with
  | Template _ (CalculationsContext (Some p)) => items p
  | Template _ (AdminContext _ calculations _) => calculations
  | _ => []
  end.

Definition listed_contacts (r : response) : list ContactSubmission :=
  match content r with
  | Template _ (ContactsContext (Some p)) => items p
  | Template _ (AdminContext _ _ contacts) => contacts
  | _ => []
  end.

(** ** Shapes of bodies and rows *)

Definition is_dict (v : value) : bool :=
  match v with
  | VDict _ => true
  | _ => false
  end.

Definition is_str (v : value) : bool :=
  match v with
  | VStr _ => true
  | _ => false
  end.

(** The string is empty or begins with a character that is not white
    space. *)
Definition starts_clean (s : string) : Prop :=
  match s with
  | EmptyString => True
  | String c _ => is_space c = false
  end.

(** No coefficient of the row is below zero. *)
Definition coefficients_valid (c : DeliveryCoefficients) : Prop :=
  (distance_coefficient c <? 0)%float = false
  /\ (weight_coefficient c <? 0)%float = false
  /\ (base_cost c <? 0)%float = false.

(** Distance and weight are floats above zero, and the cost is not NaN. *)
Definition calculation_valid (c : DeliveryCalculation) : Prop :=
  (0 <? distance c)%float = true
  /\ (0 <? weight c)%float = true
  /\ is_nan (calculated_cost c) = false.

(** Name, address and message are trimmed and not empty, the address holds
    an ['@'] and a ['.'], and a phone number, when there is one, is trimmed
    and not empty. *)
Definition submission_valid (c : ContactSubmission) : Prop :=
  strip (name c) = name c /\ is_empty (name c) = false
  /\ strip (email c) = email c /\ email_ok (email c) = true
  /\ strip (message c) = message c /\ is_empty (message c) = false
  /\ match phone c with
     | Some p => strip p = p /\ is_empty p = false
     | None => True
     end.

(** The primary keys of each table are pairwise distinct. *)
Definition unique_ids (db : DB) : Prop :=
  NoDup (map coefficients_id (delivery_coefficients db))
  /\ NoDup (map submission_id (contact_submissions db))
  /\ NoDup (map calculation_id (delivery_calculations db)).

(** ** More sample requests *)

(** [[1, 2]] *)
Definition list_body : value := VList [VInt 1; VInt 2].

(** [{"distance": "abc"}] *)
Definition distance_only_fields : list (string * value) :=
  [("distance", VStr "abc")].

(** [{"distance": 10 ** 400, "weight": 2}] *)
Definition huge_distance_body : value :=
  VDict [("distance", VInt (10 ^ 400)); ("weight", VInt 2)].

(** [{"name": "Ann", "email": "a@b.com", "phone": null, "message": "Hello"}] *)
Definition null_phone_fields : list (string * value) :=
  [("name", VStr "Ann"); ("email", VStr "a@b.com"); ("phone", VNone);
   ("message", VStr "Hello")].

(** [{"distance": 9007199254740993, "weight": 2}]: the distance is
    [2 ** 53 + 1], which no float holds. *)
Definition odd_distance_body : value :=
  VDict [("distance", VInt (2 ^ 53 + 1)); ("weight", VInt 2)].

(** [{"distance": Infinity, "weight": 2}], which [json.loads] reads. *)
Definition infinite_distance_body : value :=
  VDict [("distance", VFloat infinity); ("weight", VInt 2)].


(** The seeded store after an update that sets the distance coefficient
    to zero. *)
Definition free_distance_db : DB :=
  snd (update_coefficients (coefficients_form "0" "0.5" "5") 1 seeded_db).

(** A session on the admin page and the two forms of the site. *)
Definition sample_requests : list (request * Z) :=
  [(PostCalculateDelivery sample_body, 1);
   (PostContact (contact_body " a@b.com "), 2);
   (PostUpdateCoefficients (coefficients_form "0.3" "0.4" "4.0"), 3);
   (PostCalculateDelivery sample_body, 4);
   (PostCalculateDelivery zero_distance_body, 5);
   (PostContact (contact_body "abc"), 6);
   (PostUpdateCoefficients (coefficients_form "-1" "0.5" "5"), 7);
   (GetAdmin, 8)].

(** * Properties *)

(** ** Numbers and comparisons *)

Lemma float_positive_not_le0 (f : float) :
  (0 <? f)%float = true -> (f <=? 0)%float = false.
Proof.
  rewrite ltb_spec, leb_spec.
  change (Prim2SF 0) with (S754_zero false).
  destruct (Prim2SF f) as [s | s | | s m e]; try destruct s;
    cbv; congruence.
Qed.

Lemma le0_number (v : value) : is_number v = true -> le0 v = Ok (nonpositive v).
Proof. destruct v; simpl; congruence. Qed.

Lemma le0_not_number (v : value) : is_number v = false -> le0 v = Raise TypeError.
Proof. destruct v; simpl; congruence. Qed.

Lemma nonpositive_number (v : value) : nonpositive v = true -> is_number v = true.
Proof. destruct v; simpl; congruence. Qed.

Lemma get_present (data : value) (key : string) (v : value) :
  get data key VNone = Ok v -> is_none v = false -> truthy data = true.
Proof.
  destruct data as [| b | z | f | s | l | its]; simpl; try discriminate.
  destruct its as [| kv rest]; simpl; [| reflexivity].
  intros [= <-]. discriminate.
Qed.

Lemma nonpositive_not_none (v : value) : nonpositive v = true -> is_none v = false.
Proof. destruct v; simpl; congruence. Qed.

(** ** Integers as floats *)

Lemma digits2_pos_size (p : BinNums.positive) : digits2_pos p = Pos.size p.
Proof. induction p; simpl; congruence. Qed.

Lemma Zdigits2_log2 (m : Z) : 0 < m -> Zdigits2 m = Z.log2 m + 1.
Proof.
  destruct m as [| p | p]; try lia. intros _. cbn [Zdigits2].
  rewrite digits2_pos_size. destruct p; cbn [Pos.size Z.log2]; lia.
Qed.

Lemma shr_1_m (mrs : shr_record) :
  0 <= shr_m mrs -> shr_m (shr_1 mrs) = Z.div2 (shr_m mrs).
Proof.
  destruct mrs as [m r s]. cbn [shr_m shr_1].
  destruct m as [| [p | p |] | p]; cbn; try reflexivity; lia.
Qed.

Lemma iter_shr_1_m (k : BinNums.positive) (mrs : shr_record) :
  0 <= shr_m mrs ->
  shr_m (iter_pos shr_1 k mrs) = Z.shiftr (shr_m mrs) (Z.pos k).
Proof.
  revert mrs. induction k as [k IH | k IH |]; intros mrs H; cbn [iter_pos].
  - assert (H1 : 0 <= shr_m (shr_1 mrs)).
    { rewrite shr_1_m by assumption. rewrite Z.div2_div. apply Z.div_pos; lia. }
    assert (H2 : 0 <= shr_m (iter_pos shr_1 k (shr_1 mrs))).
    { rewrite IH by assumption. apply Z.shiftr_nonneg. assumption. }
    rewrite IH, IH, shr_1_m by assumption.
    rewrite Z.div2_spec, !Z.shiftr_shiftr by lia. f_equal. lia.
  - assert (H2 : 0 <= shr_m (iter_pos shr_1 k mrs)).
    { rewrite IH by assumption. apply Z.shiftr_nonneg. assumption. }
    rewrite IH, IH by assumption.
    rewrite !Z.shiftr_shiftr by lia. f_equal. lia.
  - rewrite shr_1_m by assumption. apply Z.div2_spec.
Qed.

(** Shifting a positive mantissa to the exponent of the format keeps it
    positive and keeps the magnitude, above the smallest exponent. *)
Lemma shr_fexp_pos (m e : Z) (l : location) :
  0 < m -> SpecFloat.emin prec emax < Zdigits2 m + e ->
  0 < shr_m (fst (shr_fexp prec emax m e l))
  /\ Zdigits2 (shr_m (fst (shr_fexp prec emax m e l)))
     + snd (shr_fexp prec emax m e l) = Zdigits2 m + e.
Proof.
  intros Hm He. unfold shr_fexp, shr.
  assert (Hr : shr_m (shr_record_of_loc m l) = m)
    by (destruct l as [| []]; reflexivity).
  pose proof (Zdigits2_log2 Hm) as Hd.
  pose proof (Z.log2_nonneg m) as Hl.
  destruct (fexp prec emax (Zdigits2 m + e) - e) as [| k | k] eqn:En;
    cbn [fst snd]; rewrite ?Hr; try (split; [assumption | reflexivity]).
  rewrite iter_shr_1_m by (rewrite Hr; lia). rewrite Hr.
  assert (Hk : Z.pos k <= Z.log2 m).
  { unfold fexp, SpecFloat.emin, prec, emax in *. lia. }
  assert (Hp : 0 < Z.shiftr m (Z.pos k)).
  { rewrite Z.shiftr_div_pow2 by lia.
    apply Z.div_str_pos. split; [apply Z.pow_pos_nonneg; lia |].
    transitivity (2 ^ Z.log2 m); [apply Z.pow_le_mono_r; lia |].
    apply Z.log2_spec. assumption. }
  split; [assumption |].
  rewrite (Zdigits2_log2 Hp), Z.log2_shiftr by assumption. lia.
Qed.

Lemma shr_fexp_snd (m e : Z) (l : location) :
  e <= fexp prec emax (Zdigits2 m + e) ->
  snd (shr_fexp prec emax m e l) = fexp prec emax (Zdigits2 m + e).
Proof.
  intros H. unfold shr_fexp, shr.
  destruct (fexp prec emax (Zdigits2 m + e) - e) eqn:E; cbn [snd]; lia.
Qed.

Lemma round_nearest_even_pos (m : Z) (l : location) :
  0 < m ->
  0 < round_nearest_even m l
  /\ Zdigits2 m <= Zdigits2 (round_nearest_even m l).
Proof.
  intros Hm.
  assert (H : m <= round_nearest_even m l).
  { unfold round_nearest_even. destruct l as [| []]; try lia.
    destruct (Z.even m); lia. }
  split; [lia |].
  rewrite !Zdigits2_log2 by lia.
  apply Z.add_le_mono_r, Z.log2_le_mono. assumption.
Qed.

(** Rounding a positive mantissa gives a float of the format that is
    above zero. *)
Lemma binary_round_aux_pos (m e : Z) (l : location) :
  0 < m -> SpecFloat.emin prec emax < Zdigits2 m + e ->
  e <= fexp prec emax (Zdigits2 m + e) ->
  valid_binary (binary_round_aux prec emax false m e l) = true
  /\ SFltb (S754_zero false) (binary_round_aux prec emax false m e l) = true.
Proof.
  intros Hm He Hc. unfold binary_round_aux.
  destruct (@shr_fexp_pos m e l Hm He) as [H1 H2].
  pose proof (@shr_fexp_snd m e l Hc) as S1.
  destruct (shr_fexp prec emax m e l) as [mrs' e'] eqn:E1. cbn [fst snd] in *.
  destruct (@round_nearest_even_pos (shr_m mrs') (loc_of_shr_record mrs') H1)
    as [H3 H4].
  set (m2 := round_nearest_even (shr_m mrs') (loc_of_shr_record mrs')) in *.
  assert (He' : SpecFloat.emin prec emax < Zdigits2 m2 + e') by lia.
  assert (Hc' : e' <= fexp prec emax (Zdigits2 m2 + e')).
  { assert (S1' : e' = fexp prec emax (Zdigits2 (shr_m mrs') + e'))
      by (rewrite H2; exact S1).
    revert S1'. unfold fexp. lia. }
  destruct (@shr_fexp_pos m2 e' loc_Exact H3 He') as [H5 H6].
  pose proof (@shr_fexp_snd m2 e' loc_Exact Hc') as S2.
  destruct (shr_fexp prec emax m2 e' loc_Exact) as [mrs'' e''] eqn:E2.
  cbn [fst snd] in *.
  destruct (shr_m mrs'') as [| q | q]; try lia.
  destruct (e'' <=? emax - prec) eqn:Eb; [| split; reflexivity].
  split; [| reflexivity].
  cbn [valid_binary]. unfold bounded, canonical_mantissa.
  rewrite Eb, andb_true_r. apply Z.eqb_eq.
  cbn [Zdigits2] in H6. rewrite H6. symmetry. exact S2.
Qed.

Lemma digits2_pos_iter_xO (p d : BinNums.positive) :
  Z.pos (digits2_pos (Pos.iter xO p d)) = Z.pos (digits2_pos p) + Z.pos d.
Proof.
  induction d as [| d IH] using Pos.peano_ind.
  - cbn. lia.
  - rewrite Pos.iter_succ. cbn [digits2_pos]. lia.
Qed.

Lemma binary_normalize_pos (p : BinNums.positive) :
  valid_binary (binary_normalize prec emax (Z.pos p) 0 false) = true
  /\ SFltb (S754_zero false) (binary_normalize prec emax (Z.pos p) 0 false)
     = true.
Proof.
  cbn [binary_normalize]. unfold binary_round, shl_align.
  set (F := fexp prec emax (Z.pos (digits2_pos p) + 0)).
  assert (Hp : 0 < Z.pos (digits2_pos p)) by lia.
  assert (HF : F = fexp prec emax (Z.pos (digits2_pos p) + 0)) by reflexivity.
  destruct (F - 0) as [| d | d] eqn:E;
    apply binary_round_aux_pos; try lia; cbn [Zdigits2];
    rewrite ?digits2_pos_iter_xO; unfold fexp, SpecFloat.emin, prec, emax in *;
    lia.
Qed.

(** [float(z)] is above zero for an [int] above zero. *)
Lemma float_of_int_positive (z : Z) (f : float) :
  0 < z -> float_of_int z = Ok f -> (0 <? f)%float = true.
Proof.
  intros Hz. unfold float_of_int.
  destruct (is_infinity _); [discriminate |]. intros [= <-].
  destruct z as [| p | p]; try lia.
  destruct (binary_normalize_pos p) as [Hv Hl].
  rewrite ltb_spec, Prim2SF_SF2Prim by exact Hv. exact Hl.
Qed.

Lemma float_not_le0_positive (f : float) :
  (f <=? 0)%float = false -> is_nan f = false -> (0 <? f)%float = true.
Proof.
  unfold is_nan. rewrite leb_spec, ltb_spec, eqb_spec.
  change (Prim2SF 0) with (S754_zero false).
  destruct (Prim2SF f) as [s | s | | s m e]; try destruct s; cbv;
    try congruence.
  all: rewrite ?Pos.compare_cont_refl; try congruence.
Qed.

Lemma float_positive_not_nan (f : float) :
  (0 <? f)%float = true -> is_nan f = false.
Proof.
  rewrite ltb_spec. intros H. destruct (is_nan f) eqn:E; [| reflexivity].
  unfold Prim2SF in H. rewrite E in H. discriminate H.
Qed.

Lemma float_positive_not_zero (f : float) :
  (0 <? f)%float = true -> (f =? 0)%float = false.
Proof.
  rewrite ltb_spec, eqb_spec.
  change (Prim2SF 0) with (S754_zero false).
  destruct (Prim2SF f) as [s | s | | s m e]; try destruct s;
    cbv; congruence.
Qed.

(** ** Floats in the store *)

Lemma sqlite_real_positive (f : float) :
  (0 <? f)%float = true -> sqlite_real f = f.
Proof.
  intros H. unfold sqlite_real. now rewrite (float_positive_not_zero H).
Qed.

Lemma sqlite_real_not_nan (f : float) :
  is_nan f = false -> is_nan (sqlite_real f) = false.
Proof.
  intros H. unfold sqlite_real. destruct (f =? 0)%float; [reflexivity | exact H].
Qed.

(** The float that is read back is equal, in the sense of [==], to the
    float that was written. *)
Lemma sqlite_real_eqb (f : float) :
  is_nan f = false -> (sqlite_real f =? f)%float = true.
Proof.
  intros H. unfold sqlite_real. destruct (f =? 0)%float eqn:E.
  - revert E. rewrite !eqb_spec.
    change (Prim2SF 0) with (S754_zero false).
    destruct (Prim2SF f) as [s | s | | s m e]; try destruct s;
      cbv; congruence.
  - unfold is_nan in H. now apply negb_false_iff in H.
Qed.

Lemma sqlite_real_ltb (f : float) :
  (sqlite_real f <? 0)%float = (f <? 0)%float.
Proof.
  unfold sqlite_real. destruct (f =? 0)%float eqn:E; [| reflexivity].
  revert E. rewrite eqb_spec, !ltb_spec.
  change (Prim2SF 0) with (S754_zero false).
  destruct (Prim2SF f) as [s | s | | s m e]; try destruct s;
    cbv; congruence.
Qed.

Lemma store_float_positive (f : float) :
  (0 <? f)%float = true -> store_float f = Ok f.
Proof.
  intros H. unfold store_float.
  now rewrite (float_positive_not_nan H), (sqlite_real_positive H).
Qed.

Lemma to_float_number (v : value) :
  is_number v = true -> to_float v = as_float v.
Proof. destruct v; simpl; congruence. Qed.

Lemma bind_float_number (v : value) :
  is_number v = true -> bind_float v = as_float v.
Proof. destruct v; simpl; congruence. Qed.

Lemma positive_number (v : value) : positive v = true -> is_number v = true.
Proof. destruct v; simpl; congruence. Qed.

Lemma positive_nonpositive (v : value) :
  positive v = true -> nonpositive v = false.
Proof.
  destruct v; simpl; try discriminate; intros H.
  - now rewrite H.
  - lia.
  - now apply float_positive_not_le0.
Qed.

(** A number that the check [<= 0] lets through is, as a float, above
    zero or NaN. *)
Lemma as_float_positive (v : value) (f : float) :
  is_number v = true -> nonpositive v = false -> as_float v = Ok f ->
  is_nan f = false -> (0 <? f)%float = true.
Proof.
  destruct v as [| b | z | g | s | l | its]; simpl; try discriminate;
    intros _ Hn Hf Hnan.
  - destruct b; [| discriminate]. now injection Hf as <-.
  - apply (@float_of_int_positive z); [lia | exact Hf].
  - injection Hf as <-. now apply float_not_le0_positive.
Qed.

Lemma positive_as_float (v : value) (f : float) :
  positive v = true -> as_float v = Ok f -> (0 <? f)%float = true.
Proof.
  destruct v as [| b | z | g | s | l | its]; simpl; try discriminate;
    intros Hp Hf.
  - subst b. now injection Hf as <-.
  - apply (@float_of_int_positive z); [lia | exact Hf].
  - now injection Hf as <-.
Qed.

(** The row of a calculation whose distance and weight are numbers that
    passed the check: the commit is refused when one of the three floats
    is NaN, and writes them otherwise. *)
Lemma calculation_row_numbers
    (id : Z) (d w : value) (fd fw cost : float) (now : Z) :
  is_number d = true -> is_number w = true ->
  nonpositive d = false -> nonpositive w = false ->
  as_float d = Ok fd -> as_float w = Ok fw ->
  calculation_row id d w cost now =
    if is_nan fd || is_nan fw || is_nan cost then Raise IntegrityError
    else Ok {| calculation_id := id;
               distance := fd;
               weight := fw;
               calculated_cost := sqlite_real cost;
               calculated_at := now |}.
Proof.
  intros Id Iw Pd Pw Fd Fw. unfold calculation_row.
  rewrite (bind_float_number _ Id), (bind_float_number _ Iw), Fd, Fw.
  cbn [Py.bind].
  destruct (is_nan fd) eqn:Nd.
  { unfold store_float. now rewrite Nd. }
  rewrite (store_float_positive (as_float_positive _ Id Pd Fd Nd)).
  cbn [Py.bind orb].
  destruct (is_nan fw) eqn:Nw.
  { unfold store_float. now rewrite Nw. }
  rewrite (store_float_positive (as_float_positive _ Iw Pw Fw Nw)).
  cbn [Py.bind orb]. unfold store_float.
  destruct (is_nan cost); reflexivity.
Qed.

(** ** The builtins on known values *)

Example float_of_str_examples :
  float_of_str "0.3" = Ok 0.3%float
  /\ float_of_str " 1_000.5 " = Ok 1000.5%float
  /\ float_of_str "-1" = Ok (-1)%float
  /\ float_of_str "5e-1" = Ok 0.5%float
  /\ float_of_str "1e400" = Ok infinity
  /\ float_of_str "NaN" = Ok nan
  /\ float_of_str "abc" = Raise ValueError
  /\ float_of_str "1__0" = Raise ValueError
  /\ float_of_str "" = Raise ValueError
  /\ float_of_str (String (ascii_of_nat 160) "0.3") = Ok 0.3%float
  /\ float_of_str (String (ascii_of_nat 31) "0.3") = Raise ValueError
  /\ strip (String (ascii_of_nat 31) "0.3") = "0.3".
Proof. repeat split; vm_compute; reflexivity. Qed.

Example store_float_examples :
  store_float 0.5 = Ok 0.5%float
  /\ store_float (-0) = Ok 0%float
  /\ store_float infinity = Ok infinity
  /\ store_float nan = Raise IntegrityError
  /\ bind_float (VInt (2 ^ 53 + 1)) = Ok 9007199254740992%float
  /\ bind_float (VBool true) = Ok 1%float.
Proof. repeat split; vm_compute; reflexivity. Qed.

Example round2_examples :
  round2 2.675%float = 2.67%float
  /\ round2 0.125%float = 0.12%float
  /\ round2 0.375%float = 0.38%float
  /\ round2 11%float = 11%float
  /\ round2 (-0.001)%float = (-0)%float
  /\ round2 infinity = infinity.
Proof. repeat split; vm_compute; reflexivity. Qed.

Example float_of_int_examples :
  float_of_int 10 = Ok 10%float
  /\ float_of_int (2 ^ 53 + 1) = Ok 9007199254740992%float
  /\ float_of_int (10 ^ 400) = Raise OverflowError.
Proof. repeat split; vm_compute; reflexivity. Qed.

Example strip_examples :
  strip "  a b  " = "a b" /\ strip "   " = "" /\ strip "a@b.com" = "a@b.com".
Proof. repeat split; reflexivity. Qed.

(** ** Calculate delivery *)

(** The run of the handler on a body that passes every check: the commit
    is refused when the distance, the weight or the cost is NaN, and the
    row is stored otherwise. *)
Lemma calculate_delivery_try_valid
    (data d w : value) (fd fw : float) (c : DeliveryCoefficients)
    (now : Z) (db : DB) :
  get data "distance" VNone = Ok d ->
  get data "weight" VNone = Ok w ->
  is_number d = true -> is_number w = true ->
  nonpositive d = false -> nonpositive w = false ->
  as_float d = Ok fd -> as_float w = Ok fw ->
  first (delivery_coefficients db) = Some c ->
  calculate_delivery_try data now db =
    let cost :=
      round2 (base_cost c + distance_coefficient c * fd
              + weight_coefficient c * fw)%float in
    if is_nan fd || is_nan fw || is_nan cost then Raise IntegrityError
    else
      Ok (json_ok (Calculated cost d w (distance_coefficient c)
                     (weight_coefficient c) (base_cost c)),
          add_calculation
            {| calculation_id := next_id calculation_id (delivery_calculations db);
               distance := fd;
               weight := fw;
               calculated_cost := sqlite_real cost;
               calculated_at := now |} db).
Proof.
  intros Hd Hw Id Iw Pd Pw Fd Fw Hc.
  assert (Nd : is_none d = false) by (destruct d; simpl in *; congruence).
  assert (Nw : is_none w = false) by (destruct w; simpl in *; congruence).
  unfold calculate_delivery_try, fmul.
  rewrite (get_present _ _ Hd Nd), Hd, Hw. cbn [negb Py.bind].
  rewrite Nd, Nw, (le0_number _ Id), (le0_number _ Iw), Pd, Pw.
  cbn [orb Py.bind].
  rewrite Hc, Fd, Fw. cbn [Py.bind].
  rewrite (@calculation_row_numbers _ d w fd fw _ _ Id Iw Pd Pw Fd Fw).
  cbv zeta. destruct (is_nan fd || is_nan fw || is_nan _); reflexivity.
Qed.

(** C1 (amended): for a body whose distance and weight are numbers above
    zero that Python converts to floats, and the stored coefficients
    [(base_cost, distance_coefficient, weight_coefficient)], the handler
    answers with
    [cost = round(base_cost + distance_coefficient*distance
                  + weight_coefficient*weight, 2)], the products and sums
    being those of Python's floats, unless that cost is NaN: then the
    store refuses the row and the answer is 500. *)
Theorem calculate_delivery_cost_formula
    (data d w : value) (fd fw : float) (c : DeliveryCoefficients)
    (now : Z) (db : DB) :
  get data "distance" VNone = Ok d ->
  get data "weight" VNone = Ok w ->
  positive d = true -> positive w = true ->
  as_float d = Ok fd -> as_float w = Ok fw ->
  first (delivery_coefficients db) = Some c ->
  let cost :=
    round2 (base_cost c + distance_coefficient c * fd
            + weight_coefficient c * fw)%float in
  fst (calculate_delivery data now db) =
    if is_nan cost
    then json (Failed "Calculation failed: " IntegrityError) 500
    else
      json_ok
        (Calculated cost d w (distance_coefficient c) (weight_coefficient c)
           (base_cost c)).
Proof.
  intros Hd Hw Pd Pw Fd Fw Hc cost.
  unfold calculate_delivery.
  rewrite (calculate_delivery_try_valid data now db Hd Hw
             (positive_number _ Pd) (positive_number _ Pw)
             (positive_nonpositive _ Pd) (positive_nonpositive _ Pw)
             Fd Fw Hc).
  cbv zeta. fold cost.
  rewrite (float_positive_not_nan (positive_as_float _ Pd Fd)),
    (float_positive_not_nan (positive_as_float _ Pw Fw)).
  cbn [orb]. destruct (is_nan cost); reflexivity.
Qed.

(** What a run of the handler that does not raise looks like: one of the
    four rejections with the store untouched, or the stored calculation. *)
Lemma calculate_delivery_try_inv
    (data : value) (now : Z) (db : DB) (resp : response) (db' : DB) :
  calculate_delivery_try data now db = Ok (resp, db') ->
  (db' = db /\ status resp <> 200)
  \/ exists d w fd fw c,
       get data "distance" VNone = Ok d /\ get data "weight" VNone = Ok w
       /\ is_number d = true /\ is_number w = true
       /\ nonpositive d = false /\ nonpositive w = false
       /\ as_float d = Ok fd /\ as_float w = Ok fw
       /\ first (delivery_coefficients db) = Some c
       /\ is_nan fd = false /\ is_nan fw = false
       /\ let cost :=
            round2 (base_cost c + distance_coefficient c * fd
                    + weight_coefficient c * fw)%float in
          is_nan cost = false
          /\ resp = json_ok (Calculated cost d w (distance_coefficient c)
                               (weight_coefficient c) (base_cost c))
          /\ db' = add_calculation
                     {| calculation_id :=
                          next_id calculation_id (delivery_calculations db);
                        distance := fd;
                        weight := fw;
                        calculated_cost := sqlite_real cost;
                        calculated_at := now |} db.
Proof.
  intros H. pose proof H as H0.
  unfold calculate_delivery_try, fmul in H. revert H.
  destruct (truthy data); cbn [negb].
  2:{ intros [= <- <-]. left. split; [reflexivity | discriminate]. }
  destruct (get data "distance" VNone) as [d | e] eqn:Hd; cbn [Py.bind];
    [| discriminate].
  destruct (get data "weight" VNone) as [w | e] eqn:Hw; cbn [Py.bind];
    [| discriminate].
  destruct (is_none d || is_none w) eqn:Hn.
  { intros [= <- <-]. left. split; [reflexivity | discriminate]. }
  destruct (le0 d) as [bd | e] eqn:Ld; cbn [Py.bind]; [| discriminate].
  destruct bd; cbn [Py.bind].
  { intros [= <- <-]. left. split; [reflexivity | discriminate]. }
  destruct (le0 w) as [bw | e] eqn:Lw; cbn [Py.bind]; [| discriminate].
  destruct bw.
  { intros [= <- <-]. left. split; [reflexivity | discriminate]. }
  destruct (first (delivery_coefficients db)) as [c |] eqn:Hc.
  2:{ intros [= <- <-]. left. split; [reflexivity | discriminate]. }
  destruct (as_float d) as [fd | e] eqn:Fd; cbn [Py.bind]; [| discriminate].
  destruct (as_float w) as [fw | e] eqn:Fw; cbn [Py.bind]; [| discriminate].
  intros _. right. exists d, w, fd, fw, c.
  assert (Id : is_number d = true) by (destruct d; simpl in *; congruence).
  assert (Iw : is_number w = true) by (destruct w; simpl in *; congruence).
  assert (Pd : nonpositive d = false)
    by (rewrite (le0_number _ Id) in Ld; congruence).
  assert (Pw : nonpositive w = false)
    by (rewrite (le0_number _ Iw) in Lw; congruence).
  rewrite (calculate_delivery_try_valid data now db Hd Hw Id Iw Pd Pw Fd Fw Hc)
    in H0.
  cbv zeta in H0 |- *.
  destruct (is_nan fd); [discriminate |].
  destruct (is_nan fw); [discriminate |].
  destruct (is_nan _); [discriminate |].
  cbn [orb] in H0. injection H0 as <- <-.
  repeat (split; [first [assumption | reflexivity] |]). reflexivity.
Qed.

(** C2 (amended): a calculate-delivery request answered with 200 appends
    exactly one row to the calculations; the row holds the distance and the
    weight of the body as floats, [float(distance)] and [float(weight)],
    and the cost of the answer, a negative zero being stored as zero; the
    answer repeats both inputs as they were sent and the coefficients of
    the current row; the other tables are untouched. *)
Theorem calculate_delivery_success_appends_one
    (data : value) (now : Z) (db : DB) (resp : response) (db' : DB) :
  calculate_delivery data now db = (resp, db') ->
  status resp = 200 ->
  exists d w c cost row,
    get data "distance" VNone = Ok d
    /\ get data "weight" VNone = Ok w
    /\ first (delivery_coefficients db) = Some c
    /\ delivery_calculations db' = delivery_calculations db ++ [row]
    /\ to_float d = Ok (distance row)
    /\ to_float w = Ok (weight row)
    /\ calculated_cost row = sqlite_real cost
    /\ (calculated_cost row =? cost)%float = true
    /\ calculated_at row = now
    /\ content resp =
         Calculated cost d w (distance_coefficient c) (weight_coefficient c)
           (base_cost c)
    /\ delivery_coefficients db' = delivery_coefficients db
    /\ contact_submissions db' = contact_submissions db.
Proof.
  unfold calculate_delivery.
  destruct (calculate_delivery_try data now db) as [[r s] | e] eqn:E.
  2:{ intros [= <- <-]. discriminate. }
  intros [= -> ->] Hs.
  destruct (calculate_delivery_try_inv _ _ _ E)
    as [[_ Hne] | (d & w & fd & fw & c & Hd & Hw & Id & Iw & _ & _ & Fd & Fw
                   & Hc & _ & _ & Hnan & -> & ->)].
  - contradiction.
  - eexists d, w, c, _, _.
    split; [exact Hd |]. split; [exact Hw |]. split; [exact Hc |].
    split; [reflexivity |].
    split; [now rewrite (to_float_number _ Id) |].
    split; [now rewrite (to_float_number _ Iw) |].
    split; [reflexivity |].
    split; [exact (sqlite_real_eqb _ Hnan) |].
    repeat split.
Qed.

(** C3 (amended): when the body has a distance or a weight that is zero or
    negative, no calculation is stored; the answer is 400 when the distance
    is a number or is null or absent, and it is the 500 of the generic
    handler, for the [TypeError] of the comparison, when the distance is of
    another type. *)
Theorem calculate_delivery_rejects_nonpositive
    (data d w : value) (now : Z) (db : DB) :
  get data "distance" VNone = Ok d ->
  get data "weight" VNone = Ok w ->
  nonpositive d = true \/ nonpositive w = true ->
  snd (calculate_delivery data now db) = db
  /\ (is_number d = true \/ d = VNone ->
      status (fst (calculate_delivery data now db)) = 400)
  /\ (is_number d = false -> d <> VNone ->
      fst (calculate_delivery data now db) =
        json (Failed "Calculation failed: " TypeError) 500).
Proof.
  intros Hd Hw Hnp.
  assert (Ht : truthy data = true).
  { destruct Hnp as [H | H]; apply nonpositive_not_none in H;
      eauto using get_present. }
  unfold calculate_delivery, calculate_delivery_try.
  rewrite Ht, Hd, Hw. cbn [negb Py.bind].
  destruct (is_none d) eqn:Nd.
  { destruct d; try discriminate. cbn [orb fst snd status json].
    split; [reflexivity |]. split; [reflexivity | congruence]. }
  destruct (is_none w) eqn:Nw.
  { destruct Hnp as [H | H]; [| destruct w; discriminate].
    cbn [orb fst snd status json]. split; [reflexivity |].
    split; [reflexivity |]. apply nonpositive_number in H. congruence. }
  cbn [orb].
  destruct (is_number d) eqn:Id.
  - rewrite (le0_number _ Id). cbn [Py.bind].
    destruct (nonpositive d) eqn:Pd.
    + cbn [fst snd status json].
      split; [reflexivity |]. split; [reflexivity | discriminate].
    + destruct Hnp as [H | H]; [discriminate |].
      rewrite (le0_number _ (nonpositive_number _ H)), H.
      cbn [Py.bind fst snd status json].
      split; [reflexivity |]. split; [reflexivity | discriminate].
  - rewrite (le0_not_number _ Id). cbn [Py.bind fst snd].
    split; [reflexivity |]. split; [| reflexivity].
    intros [H | ->]; discriminate.
Qed.

(** C10: when the distance of the body is present and is not a number, or
    is a number that passes the comparison while the weight is present and
    is not a number, the comparison raises [TypeError] and the handler
    answers 500, not 400; nothing is stored. *)
Theorem calculate_delivery_non_numeric_500
    (data d w : value) (now : Z) (db : DB) :
  get data "distance" VNone = Ok d ->
  get data "weight" VNone = Ok w ->
  is_none d = false -> is_none w = false ->
  is_number d = false
  \/ (is_number d = true /\ nonpositive d = false /\ is_number w = false) ->
  calculate_delivery data now db =
    (json (Failed "Calculation failed: " TypeError) 500, db).
Proof.
  intros Hd Hw Nd Nw H.
  unfold calculate_delivery, calculate_delivery_try.
  rewrite (get_present _ _ Hd Nd), Hd, Hw. cbn [negb Py.bind].
  rewrite Nd, Nw. cbn [orb].
  destruct H as [Id | (Id & Pd & Iw)].
  - now rewrite (le0_not_number _ Id).
  - rewrite (le0_number _ Id), Pd. cbn [Py.bind].
    now rewrite (le0_not_number _ Iw).
Qed.

(** ** Contact form *)

Lemma contains_In (c : ascii) (s : string) :
  contains c s = true <-> In c (list_ascii_of_string s).
Proof.
  induction s as [| d s IH]; simpl.
  - split; [discriminate | contradiction].
  - rewrite orb_true_iff, IH, Ascii.eqb_eq. intuition congruence.
Qed.

Lemma email_ok_iff (e : string) :
  email_ok e = true
  <-> In "@"%char (list_ascii_of_string e) /\ In "."%char (list_ascii_of_string e).
Proof.
  unfold email_ok. rewrite <- !contains_In.
  destruct (contains "@" e), (contains "." e); simpl; intuition congruence.
Qed.

Lemma email_ok_not_empty (e : string) : email_ok e = true -> is_empty e = false.
Proof. destruct e; [discriminate | reflexivity]. Qed.

Lemma get_text_present (data : value) (key s : string) :
  get data key (VStr "") = Ok (VStr s) -> is_empty (strip s) = false ->
  truthy data = true.
Proof.
  destruct data as [| b | z | f | t | l | its]; simpl; try discriminate.
  destruct its as [| kv rest]; simpl; [| reflexivity].
  intros [= <-]. discriminate.
Qed.

(** The handler on a body whose four fields are strings (an absent field
    reads as the empty string), with a name and a message that are not
    blank. *)
Lemma submit_contact_text_fields
    (data : value) (nm em ph msg : string) (now : Z) (db : DB) :
  get data "name" (VStr "") = Ok (VStr nm) ->
  get data "email" (VStr "") = Ok (VStr em) ->
  get data "phone" (VStr "") = Ok (VStr ph) ->
  get data "message" (VStr "") = Ok (VStr msg) ->
  is_empty (strip nm) = false ->
  is_empty (strip msg) = false ->
  submit_contact data now db =
    if is_empty (strip em) then
      (json (Error "Name, email, and message are required") 400, db)
    else if email_ok (strip em) then
      let submission :=
        {| submission_id := next_id submission_id (contact_submissions db);
           name := strip nm;
           email := strip em;
           phone := if is_empty (strip ph) then None else Some (strip ph);
           message := strip msg;
           submitted_at := now |} in
      (json_ok (Submitted "Thank you for your message! We'll get back to you soon."
                  (submission_id submission)),
       add_submission submission db)
    else (json (Error "Please provide a valid email address") 400, db).
Proof.
  intros Hn He Hp Hm Nn Nm.
  unfold submit_contact, submit_contact_try, email_ok.
  rewrite (get_text_present _ _ Hn Nn), Hn, He, Hp, Hm.
  cbn [negb Py.bind strip_value]. rewrite Nn, Nm. cbn [orb].
  destruct (is_empty (strip em)); [reflexivity |].
  destruct (negb (contains "@" (strip em)) || negb (contains "." (strip em)));
    reflexivity.
Qed.

(** C6: on a submission that is valid otherwise, the address ["a@b.com"]
    is accepted (200, one row stored with that address), and each of
    ["abc"], ["a@b"] and the empty string is answered with 400 and nothing
    stored. *)
Theorem contact_email_examples
    (data : value) (nm ph msg : string) (now : Z) (db : DB) :
  get data "name" (VStr "") = Ok (VStr nm) ->
  get data "phone" (VStr "") = Ok (VStr ph) ->
  get data "message" (VStr "") = Ok (VStr msg) ->
  is_empty (strip nm) = false ->
  is_empty (strip msg) = false ->
  (get data "email" (VStr "") = Ok (VStr "a@b.com") ->
   status (fst (submit_contact data now db)) = 200
   /\ exists row,
        contact_submissions (snd (submit_contact data now db)) =
          contact_submissions db ++ [row]
        /\ email row = "a@b.com")
  /\ (forall e, In e ["abc"; "a@b"; ""] ->
      get data "email" (VStr "") = Ok (VStr e) ->
      status (fst (submit_contact data now db)) = 400
      /\ snd (submit_contact data now db) = db).
Proof.
  intros Hn Hp Hm Nn Nm. split.
  - intros He.
    rewrite (submit_contact_text_fields data now db Hn He Hp Hm Nn Nm).
    split; [reflexivity |]. eexists. split; reflexivity.
  - intros e Hin He.
    rewrite (submit_contact_text_fields data now db Hn He Hp Hm Nn Nm).
    destruct Hin as [<- | [<- | [<- | []]]]; split; reflexivity.
Qed.

(** C9: on a submission whose name and message are not blank, the address
    passes exactly when, once trimmed, it holds an ['@'] and a ['.'], in
    any position and order; otherwise the answer is 400.  So [".@"] and
    ["a.b@c"] pass. *)
Theorem contact_email_check_iff
    (data : value) (nm em ph msg : string) (now : Z) (db : DB) :
  get data "name" (VStr "") = Ok (VStr nm) ->
  get data "email" (VStr "") = Ok (VStr em) ->
  get data "phone" (VStr "") = Ok (VStr ph) ->
  get data "message" (VStr "") = Ok (VStr msg) ->
  is_empty (strip nm) = false ->
  is_empty (strip msg) = false ->
  (status (fst (submit_contact data now db)) = 200
   <-> In "@"%char (list_ascii_of_string (strip em))
       /\ In "."%char (list_ascii_of_string (strip em)))
  /\ (status (fst (submit_contact data now db)) = 200
      \/ status (fst (submit_contact data now db)) = 400)
  /\ email_ok ".@" = true
  /\ email_ok "a.b@c" = true.
Proof.
  intros Hn He Hp Hm Nn Nm.
  rewrite (submit_contact_text_fields data now db Hn He Hp Hm Nn Nm).
  rewrite <- email_ok_iff.
  destruct (is_empty (strip em)) eqn:Ee.
  - assert (email_ok (strip em) = false) as ->.
    { destruct (email_ok (strip em)) eqn:E; [| reflexivity].
      apply email_ok_not_empty in E. congruence. }
    cbn [fst status json]. repeat split; try discriminate. now right.
  - destruct (email_ok (strip em)); cbn [fst status json json_ok].
    + repeat split. now left.
    + repeat split; try discriminate. now right.
Qed.

(** ** Coefficients *)

Lemma first_add_coefficients_empty (c : DeliveryCoefficients) (db : DB) :
  delivery_coefficients db = [] ->
  first (delivery_coefficients (add_coefficients c db)) = Some c.
Proof. intros H. simpl. now rewrite H. Qed.


Lemma float_of_str_raise (s : string) (e : exn) :
  float_of_str s = Raise e -> e = ValueError.
Proof.
  unfold float_of_str.
  destruct (drop_underscores _ _) as [t |]; [| congruence].
  destruct (take_sign t) as [neg u].
  destruct u as [| c u']; [congruence |].
  destruct (is_digit c || Ascii.eqb c "."); [destruct (parse_decimal _ _) |
    destruct (parse_inf_or_nan _ _)]; congruence.
Qed.

Lemma form_float_raise
    (form : list (string * string)) (key : string) (default : float) (e : exn) :
  form_float form key default = Raise e -> e = ValueError.
Proof.
  unfold form_float. destruct (lookup key form); [| discriminate].
  apply float_of_str_raise.
Qed.

(** An update whose three values parse: it is refused when one is below
    zero, the commit fails when one is NaN, and otherwise the values are
    written to the first row, or to a new row when there is none. *)
Lemma update_coefficients_parsed
    (form : list (string * string)) (now : Z) (db : DB) (dc wc bc : float) :
  form_float form "distance_coefficient" 0.5 = Ok dc ->
  form_float form "weight_coefficient" 0.5 = Ok wc ->
  form_float form "base_cost" 5.0 = Ok bc ->
  update_coefficients form now db =
    if (dc <? 0)%float || (wc <? 0)%float || (bc <? 0)%float then
      (redirect "admin_dashboard"
         (Flash "All coefficients must be positive values" "error"), db)
    else if is_nan dc || is_nan wc || is_nan bc then
      (redirect "admin_dashboard"
         (FlashFailed "Error updating coefficients: " IntegrityError "error"),
       db)
    else
      (redirect "admin_dashboard"
         (Flash "Coefficients updated successfully!" "success"),
       match delivery_coefficients db with
       | c :: rest =>
           set_coefficients
             ({| coefficients_id := coefficients_id c;
                 distance_coefficient := sqlite_real dc;
                 weight_coefficient := sqlite_real wc;
                 base_cost := sqlite_real bc;
                 updated_at := now |} :: rest) db
       | [] =>
           add_coefficients
             {| coefficients_id :=
                  next_id coefficients_id (delivery_coefficients db);
                distance_coefficient := sqlite_real dc;
                weight_coefficient := sqlite_real wc;
                base_cost := sqlite_real bc;
                updated_at := now |} db
       end).
Proof.
  intros E1 E2 E3. unfold update_coefficients, update_coefficients_try.
  rewrite E1, E2, E3. cbn [Py.bind].
  destruct ((dc <? 0)%float || (wc <? 0)%float || (bc <? 0)%float);
    [reflexivity |].
  unfold coefficients_row, store_float.
  destruct (delivery_coefficients db) as [| c rest];
    destruct (is_nan dc), (is_nan wc), (is_nan bc); reflexivity.
Qed.

(** An update with a value that does not parse. *)
Lemma update_coefficients_unparsed
    (form : list (string * string)) (now : Z) (db : DB) :
  (exists key default e,
     In (key, default) coefficient_fields
     /\ form_float form key default = Raise e) ->
  update_coefficients form now db =
    (redirect "admin_dashboard"
       (Flash "Please enter valid numeric values" "error"), db).
Proof.
  intros (key & default & e & Hin & He).
  unfold update_coefficients, update_coefficients_try.
  destruct (form_float form "distance_coefficient" 0.5) as [dc | e1] eqn:E1;
    cbn [Py.bind].
  2:{ now rewrite (form_float_raise _ _ _ E1). }
  destruct (form_float form "weight_coefficient" 0.5) as [wc | e2] eqn:E2;
    cbn [Py.bind].
  2:{ now rewrite (form_float_raise _ _ _ E2). }
  destruct (form_float form "base_cost" 5.0) as [bc | e3] eqn:E3;
    cbn [Py.bind].
  2:{ now rewrite (form_float_raise _ _ _ E3). }
  simpl in Hin.
  destruct Hin as [[= <- <-] | [[= <- <-] | [[= <- <-] | []]]]; congruence.
Qed.

(** The two outcomes of an update: the store as it was, or the three
    parsed values, none below zero and none NaN, written to the first row
    (or to a new row when there is none). *)
Lemma update_coefficients_cases
    (form : list (string * string)) (now : Z) (db : DB) :
  snd (update_coefficients form now db) = db
  \/ exists dc wc bc,
       form_float form "distance_coefficient" 0.5 = Ok dc
       /\ form_float form "weight_coefficient" 0.5 = Ok wc
       /\ form_float form "base_cost" 5.0 = Ok bc
       /\ (dc <? 0)%float = false
       /\ (wc <? 0)%float = false
       /\ (bc <? 0)%float = false
       /\ is_nan dc = false /\ is_nan wc = false /\ is_nan bc = false
       /\ snd (update_coefficients form now db) =
            match delivery_coefficients db with
            | c :: rest =>
                set_coefficients
                  ({| coefficients_id := coefficients_id c;
                      distance_coefficient := sqlite_real dc;
                      weight_coefficient := sqlite_real wc;
                      base_cost := sqlite_real bc;
                      updated_at := now |} :: rest) db
            | [] =>
                add_coefficients
                  {| coefficients_id :=
                       next_id coefficients_id (delivery_coefficients db);
                     distance_coefficient := sqlite_real dc;
                     weight_coefficient := sqlite_real wc;
                     base_cost := sqlite_real bc;
                     updated_at := now |} db
            end.
Proof.
  destruct (form_float form "distance_coefficient" 0.5) as [dc | e1] eqn:E1.
  2:{ left. rewrite update_coefficients_unparsed; [reflexivity |].
      exists "distance_coefficient", 0.5%float, e1. simpl. auto. }
  destruct (form_float form "weight_coefficient" 0.5) as [wc | e2] eqn:E2.
  2:{ left. rewrite update_coefficients_unparsed; [reflexivity |].
      exists "weight_coefficient", 0.5%float, e2. simpl. auto. }
  destruct (form_float form "base_cost" 5.0) as [bc | e3] eqn:E3.
  2:{ left. rewrite update_coefficients_unparsed; [reflexivity |].
      exists "base_cost", 5.0%float, e3. simpl. auto. }
  rewrite (update_coefficients_parsed form now db E1 E2 E3).
  destruct (dc <? 0)%float eqn:N1; [left; reflexivity |].
  destruct (wc <? 0)%float eqn:N2; [left; reflexivity |].
  destruct (bc <? 0)%float eqn:N3; [left; reflexivity |].
  destruct (is_nan dc) eqn:M1; [left; reflexivity |].
  destruct (is_nan wc) eqn:M2; [left; reflexivity |].
  destruct (is_nan bc) eqn:M3; [left; reflexivity |].
  right. exists dc, wc, bc. cbn [orb snd]. auto 12.
Qed.

Lemma update_coefficients_try_rejects
    (form : list (string * string)) (now : Z) (db : DB) :
  (exists key default,
     In (key, default) coefficient_fields
     /\ (form_float form key default = Raise ValueError
         \/ exists x, form_float form key default = Ok x
                      /\ ((x <? 0)%float = true \/ is_nan x = true))) ->
  snd (update_coefficients form now db) = db
  /\ status (fst (update_coefficients form now db)) = 302
  /\ exists f,
       content (fst (update_coefficients form now db)) =
         Redirect "admin_dashboard" f.
Proof.
  intros (key & default & Hin & Hbad).
  destruct (form_float form "distance_coefficient" 0.5) as [dc | e1] eqn:E1.
  2:{ rewrite update_coefficients_unparsed.
      - repeat split. eexists. reflexivity.
      - exists "distance_coefficient", 0.5%float, e1. simpl. auto. }
  destruct (form_float form "weight_coefficient" 0.5) as [wc | e2] eqn:E2.
  2:{ rewrite update_coefficients_unparsed.
      - repeat split. eexists. reflexivity.
      - exists "weight_coefficient", 0.5%float, e2. simpl. auto. }
  destruct (form_float form "base_cost" 5.0) as [bc | e3] eqn:E3.
  2:{ rewrite update_coefficients_unparsed.
      - repeat split. eexists. reflexivity.
      - exists "base_cost", 5.0%float, e3. simpl. auto. }
  rewrite (update_coefficients_parsed form now db E1 E2 E3).
  assert (Hno : (dc <? 0)%float || (wc <? 0)%float || (bc <? 0)%float = true
                \/ is_nan dc || is_nan wc || is_nan bc = true).
  { simpl in Hin.
    destruct Hin as [[= <- <-] | [[= <- <-] | [[= <- <-] | []]]];
      destruct Hbad as [Hbad | (x & Hx & [Hlt | Hnan])]; try congruence;
      rewrite Hx in *;
      match goal with H : Ok _ = Ok _ |- _ => injection H as -> end;
      first [ left; rewrite Hlt, ?orb_true_r; reflexivity
            | right; rewrite Hnan, ?orb_true_r; reflexivity ]. }
  destruct ((dc <? 0)%float || (wc <? 0)%float || (bc <? 0)%float).
  - repeat split. eexists. reflexivity.
  - destruct Hno as [Hno | ->]; [discriminate |].
    repeat split. eexists. reflexivity.
Qed.

Lemma update_coefficients_try_accepts
    (form : list (string * string)) (now : Z) (db : DB) (dc wc bc : float) :
  form_float form "distance_coefficient" 0.5 = Ok dc ->
  form_float form "weight_coefficient" 0.5 = Ok wc ->
  form_float form "base_cost" 5.0 = Ok bc ->
  (dc <? 0)%float = false -> (wc <? 0)%float = false -> (bc <? 0)%float = false ->
  is_nan dc = false -> is_nan wc = false -> is_nan bc = false ->
  exists c,
    first (delivery_coefficients (snd (update_coefficients form now db))) =
      Some c
    /\ distance_coefficient c = sqlite_real dc
    /\ weight_coefficient c = sqlite_real wc
    /\ base_cost c = sqlite_real bc
    /\ updated_at c = now.
Proof.
  intros E1 E2 E3 N1 N2 N3 M1 M2 M3.
  rewrite (update_coefficients_parsed form now db E1 E2 E3).
  rewrite N1, N2, N3, M1, M2, M3. cbn [orb snd].
  destruct (delivery_coefficients db) as [| c rest] eqn:Hc.
  - rewrite first_add_coefficients_empty by assumption.
    eexists. repeat split.
  - cbn [set_coefficients delivery_coefficients first hd_error].
    eexists. repeat split.
Qed.

Lemma get_coefficients_first (db : DB) (c : DeliveryCoefficients) :
  first (delivery_coefficients db) = Some c ->
  get_coefficients (Tables db) = json_ok (Coefficients c).
Proof.
  intros H. unfold get_coefficients, get_coefficients_try.
  cbn [first_coefficients Py.bind]. now rewrite H.
Qed.

(** C4: the update leaves the store as it was, and only flashes and
    redirects, when some field of the form is not a number or some parsed
    value is negative, and also when some parsed value is NaN, which the
    store refuses; when the three values parse and none is negative or NaN
    they become the current row, a negative zero being stored as zero,
    and [GET /api/coefficients] then returns that row; so it is for the
    form that holds 0.3, 0.4 and 4.0. *)
Theorem update_coefficients_validation :
  (forall form now db,
     (exists key default,
        In (key, default) coefficient_fields
        /\ (form_float form key default = Raise ValueError
            \/ exists x, form_float form key default = Ok x
                         /\ ((x <? 0)%float = true \/ is_nan x = true))) ->
     snd (update_coefficients form now db) = db
     /\ status (fst (update_coefficients form now db)) = 302
     /\ exists f,
          content (fst (update_coefficients form now db)) =
            Redirect "admin_dashboard" f)
  /\ (forall form now db dc wc bc,
        form_float form "distance_coefficient" 0.5 = Ok dc ->
        form_float form "weight_coefficient" 0.5 = Ok wc ->
        form_float form "base_cost" 5.0 = Ok bc ->
        (dc <? 0)%float = false ->
        (wc <? 0)%float = false ->
        (bc <? 0)%float = false ->
        is_nan dc = false -> is_nan wc = false -> is_nan bc = false ->
        exists c,
          get_coefficients (Tables (snd (update_coefficients form now db))) =
            json_ok (Coefficients c)
          /\ distance_coefficient c = sqlite_real dc
          /\ weight_coefficient c = sqlite_real wc
          /\ base_cost c = sqlite_real bc
          /\ updated_at c = now)
  /\ (forall form now db,
        lookup "distance_coefficient" form = Some "0.3" ->
        lookup "weight_coefficient" form = Some "0.4" ->
        lookup "base_cost" form = Some "4.0" ->
        exists c,
          get_coefficients (Tables (snd (update_coefficients form now db))) =
            json_ok (Coefficients c)
          /\ distance_coefficient c = 0.3%float
          /\ weight_coefficient c = 0.4%float
          /\ base_cost c = 4.0%float).
Proof.
  split; [| split].
  - intros form now db H. exact (@update_coefficients_try_rejects form now db H).
  - intros form now db dc wc bc E1 E2 E3 N1 N2 N3 M1 M2 M3.
    destruct (@update_coefficients_try_accepts form now db dc wc bc)
      as (c & Hc & H); try assumption.
    exists c. split; [exact (get_coefficients_first _ Hc) | exact H].
  - intros form now db H1 H2 H3.
    destruct (@update_coefficients_try_accepts form now db 0.3 0.4 4.0)
      as (c & Hc & ? & ? & ? & _);
      try (unfold form_float; rewrite ?H1, ?H2, ?H3; vm_compute; reflexivity);
      try (vm_compute; reflexivity).
    exists c. split; [exact (get_coefficients_first _ Hc) |]. auto.
Qed.

(** ** Ordering and pages *)

Section OrderBy.

Variable A : Type.
Variable key : A -> Z.

Lemma insert_desc_perm (x : A) (rows : list A) :
  Permutation (insert_desc key x rows) (x :: rows).
Proof.
  induction rows as [| y rest IH]; simpl; [reflexivity |].
  destruct (key y <=? key x); [reflexivity |].
  rewrite IH. apply perm_swap.
Qed.

Lemma order_by_desc_perm (rows : list A) :
  Permutation (order_by_desc key rows) rows.
Proof.
  induction rows as [| x rest IH]; simpl; [reflexivity |].
  rewrite insert_desc_perm. now constructor.
Qed.

Lemma order_by_desc_length (rows : list A) :
  List.length (order_by_desc key rows) = List.length rows.
Proof. apply Permutation_length, order_by_desc_perm. Qed.

Lemma insert_desc_sorted (x : A) (rows : list A) :
  StronglySorted (desc key) rows -> StronglySorted (desc key) (insert_desc key x rows).
Proof.
  induction 1 as [| y rest Hs IH Hall]; simpl.
  - repeat constructor.
  - destruct (key y <=? key x) eqn:E.
    + apply Z.leb_le in E. constructor; [now constructor |].
      constructor; [exact E |].
      eapply Forall_impl; [| exact Hall]. unfold desc. intros; lia.
    + apply Z.leb_gt in E. constructor; [exact IH |].
      apply (Permutation_Forall (Permutation_sym (insert_desc_perm x rest))).
      constructor; [unfold desc; lia | exact Hall].
Qed.

Lemma order_by_desc_sorted (rows : list A) :
  StronglySorted (desc key) (order_by_desc key rows).
Proof.
  induction rows as [| x rest IH]; simpl; [constructor |].
  now apply insert_desc_sorted.
Qed.

Lemma sorted_app_desc (l1 l2 : list A) :
  StronglySorted (desc key) (l1 ++ l2) ->
  forall x y, In x l1 -> In y l2 -> key y <= key x.
Proof.
  induction l1 as [| a l1 IH]; simpl; [contradiction |].
  intros Hs x y [<- | Hx] Hy.
  - apply StronglySorted_inv in Hs as [_ Hall].
    rewrite Forall_forall in Hall. apply Hall, in_or_app. now right.
  - apply StronglySorted_inv in Hs as [Hs _]. eauto.
Qed.

End OrderBy.

(** C7: with 25 calculations stored, page 1 of the listing holds 20 rows
    and page 2 the other 5, the two pages together being the table in
    descending order of [calculated_at], so that no row of page 2 is more
    recent than a row of page 1; page 3 is empty and is no error; the page
    size is 20 and an absent page parameter reads as page 1. *)
Theorem admin_calculations_pages (db : DB) :
  List.length (delivery_calculations db) = 25%nat ->
  exists p1 p2,
    admin_calculations (Some 1) db =
      render_template "calculations.html"
        (CalculationsContext
           (Some {| items := p1; page := 1; per_page := 20; total := 25 |}))
    /\ admin_calculations (Some 2) db =
         render_template "calculations.html"
           (CalculationsContext
              (Some {| items := p2; page := 2; per_page := 20; total := 25 |}))
    /\ admin_calculations (Some 3) db =
         render_template "calculations.html"
           (CalculationsContext
              (Some {| items := []; page := 3; per_page := 20; total := 25 |}))
    /\ admin_calculations None db = admin_calculations (Some 1) db
    /\ List.length p1 = 20%nat
    /\ List.length p2 = 5%nat
    /\ p1 ++ p2 = order_by_desc calculated_at (delivery_calculations db)
    /\ Permutation (p1 ++ p2) (delivery_calculations db)
    /\ StronglySorted (desc calculated_at) (p1 ++ p2)
    /\ (forall x y, In x p1 -> In y p2 -> calculated_at y <= calculated_at x).
Proof.
  intros Hlen.
  set (sorted := order_by_desc calculated_at (delivery_calculations db)).
  assert (Hs : List.length sorted = 25%nat)
    by (unfold sorted; now rewrite order_by_desc_length).
  assert (Happ : firstn 20 sorted ++ skipn 20 sorted = sorted)
    by apply firstn_skipn.
  assert (Hsorted : StronglySorted (desc calculated_at) sorted)
    by apply order_by_desc_sorted.
  exists (firstn 20 sorted), (skipn 20 sorted).
  unfold admin_calculations, paginate, page_of. fold sorted.
  rewrite Hs. cbn [Z.ltb Z.compare Pos.compare Pos.compare_cont].
  change (Z.to_nat (1 - 1) * 20)%nat with 0%nat.
  change (Z.to_nat (2 - 1) * 20)%nat with 20%nat.
  change (Z.to_nat (3 - 1) * 20)%nat with 40%nat.
  change (skipn 0 sorted) with sorted.
  assert (H2 : firstn 20 (skipn 20 sorted) = skipn 20 sorted).
  { apply firstn_all2. rewrite length_skipn, Hs. simpl. lia. }
  assert (H3 : skipn 40 sorted = []).
  { apply skipn_all2. rewrite Hs. lia. }
  rewrite H2, H3, firstn_nil.
  repeat (split; [reflexivity |]).
  split; [rewrite length_firstn, Hs; reflexivity |].
  split; [rewrite length_skipn, Hs; reflexivity |].
  rewrite Happ.
  split; [reflexivity |].
  split; [apply order_by_desc_perm |].
  split; [exact Hsorted |].
  apply sorted_app_desc. now rewrite Happ.
Qed.

(** ** The two logs *)

Ltac case_step :=
  match goal with
  | |- context [Py.bind ?r _] => destruct r eqn:?; cbn [Py.bind]
  | |- context [if ?b then _ else _] => destruct b eqn:?
  | |- context [match ?o with Some _ => _ | None => _ end] => destruct o eqn:?
  end.

Lemma submit_contact_store (data : value) (now : Z) (db : DB) :
  snd (submit_contact data now db) = db
  \/ exists row,
       status (fst (submit_contact data now db)) = 200
       /\ snd (submit_contact data now db) = add_submission row db.
Proof.
  unfold submit_contact, submit_contact_try.
  repeat case_step;
    first [ left; reflexivity
          | right; eexists; split; reflexivity ].
Qed.

Lemma calculate_delivery_store (data : value) (now : Z) (db : DB) :
  snd (calculate_delivery data now db) = db
  \/ exists row,
       status (fst (calculate_delivery data now db)) = 200
       /\ snd (calculate_delivery data now db) = add_calculation row db.
Proof.
  unfold calculate_delivery.
  destruct (calculate_delivery_try data now db) as [[r s] | e] eqn:E;
    [| left; reflexivity].
  destruct (calculate_delivery_try_inv _ _ _ E)
    as [[-> _] | (d & w & fd & fw & c & _ & _ & _ & _ & _ & _ & _ & _ & _
                  & _ & _ & _ & -> & ->)];
    [left; reflexivity |].
  right. eexists. split; reflexivity.
Qed.

Lemma update_coefficients_store (form : list (string * string)) (now : Z) (db : DB) :
  contact_submissions (snd (update_coefficients form now db)) =
    contact_submissions db
  /\ delivery_calculations (snd (update_coefficients form now db)) =
       delivery_calculations db.
Proof.
  destruct (update_coefficients_cases form now db)
    as [-> | (dc & wc & bc & _ & _ & _ & _ & _ & _ & _ & _ & _ & ->)].
  - split; reflexivity.
  - destruct (delivery_coefficients db); split; reflexivity.
Qed.

(** C8 (amended): no request changes or removes a stored contact
    submission or calculation.  A request leaves each of the two tables as
    it was, except that a contact submission answered with 200 appends one
    row to the submissions and a delivery calculation answered with 200
    appends one row to the calculations; after any sequence of requests
    the rows that were stored are still the first rows of each table.  (The
    initialization command is not a request: it empties the tables.) *)
Theorem requests_only_append_to_logs :
  (forall r now db,
     (contact_submissions (snd (handle r now db)) = contact_submissions db
      \/ exists data row,
           r = PostContact data
           /\ status (fst (handle r now db)) = 200
           /\ contact_submissions (snd (handle r now db)) =
                contact_submissions db ++ [row])
     /\ (delivery_calculations (snd (handle r now db)) = delivery_calculations db
         \/ exists data row,
              r = PostCalculateDelivery data
              /\ status (fst (handle r now db)) = 200
              /\ delivery_calculations (snd (handle r now db)) =
                   delivery_calculations db ++ [row]))
  /\ (forall rs db,
        exists submissions calculations,
          contact_submissions (serve rs db) =
            contact_submissions db ++ submissions
          /\ delivery_calculations (serve rs db) =
               delivery_calculations db ++ calculations).
Proof.
  assert (Step : forall r now db,
     (contact_submissions (snd (handle r now db)) = contact_submissions db
      \/ exists data row,
           r = PostContact data
           /\ status (fst (handle r now db)) = 200
           /\ contact_submissions (snd (handle r now db)) =
                contact_submissions db ++ [row])
     /\ (delivery_calculations (snd (handle r now db)) = delivery_calculations db
         \/ exists data row,
              r = PostCalculateDelivery data
              /\ status (fst (handle r now db)) = 200
              /\ delivery_calculations (snd (handle r now db)) =
                   delivery_calculations db ++ [row])).
  { intros r now db. destruct r as [data | data | | | form | p | p | |];
      cbn [handle fst snd]; try (split; left; reflexivity).
    - destruct (calculate_delivery_store data now db) as [-> | (row & Hs & ->)].
      + split; left; reflexivity.
      + split; [left; reflexivity |]. right. exists data, row. auto.
    - destruct (submit_contact_store data now db) as [-> | (row & Hs & ->)].
      + split; left; reflexivity.
      + split; [| left; reflexivity]. right. exists data, row. auto.
    - destruct (update_coefficients_store form now db) as [-> ->].
      split; left; reflexivity. }
  split; [exact Step |].
  induction rs as [| [r now] rest IH]; intros db; cbn [serve].
  - exists [], []. now rewrite !app_nil_r.
  - destruct (IH (snd (handle r now db))) as (cs & ds & Hc & Hd).
    destruct (Step r now db) as [Sc Sd].
    assert (exists c0, contact_submissions (snd (handle r now db)) =
                         contact_submissions db ++ c0) as [c0 Ec].
    { destruct Sc as [-> | (_ & row & _ & _ & ->)];
        [exists []; now rewrite app_nil_r | now exists [row]]. }
    assert (exists d0, delivery_calculations (snd (handle r now db)) =
                         delivery_calculations db ++ d0) as [d0 Ed].
    { destruct Sd as [-> | (_ & row & _ & _ & ->)];
        [exists []; now rewrite app_nil_r | now exists [row]]. }
    exists (c0 ++ cs), (d0 ++ ds).
    rewrite Hc, Hd, Ec, Ed, <- !app_assoc. split; reflexivity.
Qed.

(** ** The properties at the sample requests *)

(** The example of the specification: on the seeded store the body
    [{"distance": 10, "weight": 2}] costs [round(5.0 + 0.5*10 + 0.5*2, 2)],
    that is 11.0. *)
Lemma calculate_delivery_cost_formula_witness :
  fst (calculate_delivery sample_body 1 seeded_db) =
    json_ok (Calculated 11%float (VInt 10) (VInt 2) 0.5%float 0.5%float 5%float).
Proof.
  exact (@calculate_delivery_cost_formula sample_body (VInt 10) (VInt 2)
           10%float 2%float (default_coeffs 0 empty_db) 1 seeded_db
           eq_refl eq_refl eq_refl eq_refl eq_refl eq_refl eq_refl).
Defined.

(** C1, as stated, fails: the distance [10 ** 400] is above zero and no
    cost is returned, since the product with the coefficient raises
    [OverflowError]; and with a distance coefficient of zero an infinite
    distance gives the cost NaN, which the store refuses. *)
Lemma calculate_delivery_positive_inputs_500 :
  get huge_distance_body "distance" VNone = Ok (VInt (10 ^ 400))
  /\ get huge_distance_body "weight" VNone = Ok (VInt 2)
  /\ positive (VInt (10 ^ 400)) = true
  /\ positive (VInt 2) = true
  /\ calculate_delivery huge_distance_body 1 seeded_db =
       (json (Failed "Calculation failed: " OverflowError) 500, seeded_db)
  /\ get infinite_distance_body "distance" VNone = Ok (VFloat infinity)
  /\ positive (VFloat infinity) = true
  /\ calculate_delivery infinite_distance_body 2 free_distance_db =
       (json (Failed "Calculation failed: " IntegrityError) 500,
        free_distance_db).
Proof. repeat split; vm_compute; reflexivity. Qed.

(** The same request stores its one row. *)
Lemma calculate_delivery_success_appends_one_witness :
  exists d w c cost row,
    get sample_body "distance" VNone = Ok d
    /\ get sample_body "weight" VNone = Ok w
    /\ first (delivery_coefficients seeded_db) = Some c
    /\ delivery_calculations (snd (calculate_delivery sample_body 1 seeded_db)) =
         delivery_calculations seeded_db ++ [row]
    /\ to_float d = Ok (distance row)
    /\ to_float w = Ok (weight row)
    /\ calculated_cost row = sqlite_real cost
    /\ (calculated_cost row =? cost)%float = true
    /\ calculated_at row = 1
    /\ content (fst (calculate_delivery sample_body 1 seeded_db)) =
         Calculated cost d w (distance_coefficient c) (weight_coefficient c)
           (base_cost c)
    /\ delivery_coefficients (snd (calculate_delivery sample_body 1 seeded_db)) =
         delivery_coefficients seeded_db
    /\ contact_submissions (snd (calculate_delivery sample_body 1 seeded_db)) =
         contact_submissions seeded_db.
Proof.
  exact (@calculate_delivery_success_appends_one sample_body 1 seeded_db
           (fst (calculate_delivery sample_body 1 seeded_db))
           (snd (calculate_delivery sample_body 1 seeded_db))
           eq_refl eq_refl).
Defined.

(** C2, as stated, fails: the distance [2 ** 53 + 1] is answered with 200
    and is repeated in the answer, and the row that is stored holds the
    float [2.0 ** 53], which is not equal to it. *)
Lemma calculate_delivery_stores_another_distance :
  exists row,
    get odd_distance_body "distance" VNone = Ok (VInt (2 ^ 53 + 1))
    /\ fst (calculate_delivery odd_distance_body 1 seeded_db) =
         json_ok (Calculated 4503599627370502%float (VInt (2 ^ 53 + 1)) (VInt 2)
                    0.5%float 0.5%float 5%float)
    /\ delivery_calculations (snd (calculate_delivery odd_distance_body 1 seeded_db)) =
         delivery_calculations seeded_db ++ [row]
    /\ distance row = 9007199254740992%float
    /\ float_eqb_int (distance row) (2 ^ 53 + 1) = false
    /\ float_eqb_int (distance row) (2 ^ 53) = true.
Proof. eexists. repeat split; vm_compute; reflexivity. Qed.

(** C3, as stated, fails: the body [{"distance": "abc", "weight": -1}] has
    a negative weight, and the answer is the 500 of the generic handler. *)
Lemma calculate_delivery_negative_weight_500 :
  get text_distance_body "weight" VNone = Ok (VInt (-1))
  /\ nonpositive (VInt (-1)) = true
  /\ calculate_delivery text_distance_body 1 seeded_db =
       (json (Failed "Calculation failed: " TypeError) 500, seeded_db)
  /\ ~ (400 <= status (fst (calculate_delivery text_distance_body 1 seeded_db))
        < 500).
Proof.
  repeat (split; [reflexivity |]).
  change (status (fst (calculate_delivery text_distance_body 1 seeded_db)))
    with 500.
  lia.
Qed.

(** A distance of zero is answered with 400 and stores nothing. *)
Lemma calculate_delivery_rejects_nonpositive_witness :
  snd (calculate_delivery zero_distance_body 1 seeded_db) = seeded_db
  /\ (is_number (VInt 0) = true \/ VInt 0 = VNone ->
      status (fst (calculate_delivery zero_distance_body 1 seeded_db)) = 400)
  /\ (is_number (VInt 0) = false -> VInt 0 <> VNone ->
      fst (calculate_delivery zero_distance_body 1 seeded_db) =
        json (Failed "Calculation failed: " TypeError) 500).
Proof.
  exact (@calculate_delivery_rejects_nonpositive zero_distance_body
           (VInt 0) (VInt 2) 1 seeded_db eq_refl eq_refl (or_introl eq_refl)).
Defined.

(** A weight, or a distance, that is a string is answered with 500. *)
Lemma calculate_delivery_non_numeric_500_witness :
  calculate_delivery text_weight_body 1 seeded_db =
    (json (Failed "Calculation failed: " TypeError) 500, seeded_db)
  /\ calculate_delivery text_distance_body 1 seeded_db =
       (json (Failed "Calculation failed: " TypeError) 500, seeded_db).
Proof.
  split.
  - exact (@calculate_delivery_non_numeric_500 text_weight_body
             (VInt 10) (VStr "heavy") 1 seeded_db eq_refl eq_refl eq_refl
             eq_refl (or_intror (conj eq_refl (conj eq_refl eq_refl)))).
  - exact (@calculate_delivery_non_numeric_500 text_distance_body
             (VStr "abc") (VInt (-1)) 1 seeded_db eq_refl eq_refl eq_refl
             eq_refl (or_introl eq_refl)).
Defined.

(** The four addresses of the specification in a submission by Ann. *)
Lemma contact_email_examples_witness :
  status (fst (submit_contact (contact_body "a@b.com") 1 seeded_db)) = 200
  /\ status (fst (submit_contact (contact_body "abc") 1 seeded_db)) = 400
  /\ status (fst (submit_contact (contact_body "a@b") 1 seeded_db)) = 400
  /\ status (fst (submit_contact (contact_body "") 1 seeded_db)) = 400.
Proof.
  split; [| split; [| split]].
  - exact (proj1 (proj1 (@contact_email_examples (contact_body "a@b.com")
                           "Ann" "" "Hello" 1 seeded_db
                           eq_refl eq_refl eq_refl eq_refl eq_refl) eq_refl)).
  - exact (proj1 (proj2 (@contact_email_examples (contact_body "abc")
                           "Ann" "" "Hello" 1 seeded_db
                           eq_refl eq_refl eq_refl eq_refl eq_refl)
                    "abc" (or_introl eq_refl) eq_refl)).
  - exact (proj1 (proj2 (@contact_email_examples (contact_body "a@b")
                           "Ann" "" "Hello" 1 seeded_db
                           eq_refl eq_refl eq_refl eq_refl eq_refl)
                    "a@b" (or_intror (or_introl eq_refl)) eq_refl)).
  - exact (proj1 (proj2 (@contact_email_examples (contact_body "")
                           "Ann" "" "Hello" 1 seeded_db
                           eq_refl eq_refl eq_refl eq_refl eq_refl)
                    "" (or_intror (or_intror (or_introl eq_refl))) eq_refl)).
Defined.

(** [".@"] and [" a.b@c "] are accepted, ["a@b"] is not. *)
Lemma contact_email_check_iff_witness :
  status (fst (submit_contact (contact_body ".@") 1 seeded_db)) = 200
  /\ status (fst (submit_contact (contact_body " a.b@c ") 1 seeded_db)) = 200
  /\ status (fst (submit_contact (contact_body "a@b") 1 seeded_db)) <> 200.
Proof.
  split; [| split].
  - apply (proj1 (@contact_email_check_iff (contact_body ".@")
                    "Ann" ".@" "" "Hello" 1 seeded_db
                    eq_refl eq_refl eq_refl eq_refl eq_refl eq_refl)).
    split; simpl; tauto.
  - apply (proj1 (@contact_email_check_iff (contact_body " a.b@c ")
                    "Ann" " a.b@c " "" "Hello" 1 seeded_db
                    eq_refl eq_refl eq_refl eq_refl eq_refl eq_refl)).
    split; simpl; tauto.
  - intros H.
    apply (proj1 (@contact_email_check_iff (contact_body "a@b")
                    "Ann" "a@b" "" "Hello" 1 seeded_db
                    eq_refl eq_refl eq_refl eq_refl eq_refl eq_refl)) in H.
    destruct H as [_ H]. simpl in H.
    repeat (destruct H as [H | H]; [discriminate H |]). exact H.
Defined.



(** The forms of the specification: a negative value, a word and a NaN
    are refused, 0.3, 0.4 and 4.0 are stored. *)
Lemma update_coefficients_validation_witness :
  snd (update_coefficients (coefficients_form "-1" "0.5" "5") 1 seeded_db) =
    seeded_db
  /\ snd (update_coefficients (coefficients_form "0.5" "cheap" "5") 1 seeded_db) =
       seeded_db
  /\ snd (update_coefficients (coefficients_form "0.5" "0.5" "nan") 1 seeded_db) =
       seeded_db
  /\ exists c,
       get_coefficients
         (Tables
            (snd (update_coefficients (coefficients_form "0.3" "0.4" "4.0") 1
                    seeded_db))) = json_ok (Coefficients c)
       /\ distance_coefficient c = 0.3%float
       /\ weight_coefficient c = 0.4%float
       /\ base_cost c = 4.0%float.
Proof.
  split; [| split; [| split]].
  - apply (proj1 update_coefficients_validation).
    exists "distance_coefficient", 0.5%float. split; [left; reflexivity |].
    right. exists (-1)%float. split; [reflexivity | left; reflexivity].
  - apply (proj1 update_coefficients_validation).
    exists "weight_coefficient", 0.5%float.
    split; [right; left; reflexivity |]. left. reflexivity.
  - apply (proj1 update_coefficients_validation).
    exists "base_cost", 5.0%float.
    split; [right; right; left; reflexivity |].
    right. exists nan. split; [reflexivity | right; reflexivity].
  - apply (proj2 (proj2 update_coefficients_validation)); reflexivity.
Defined.

(** The listing of a store with 25 calculations. *)
Lemma admin_calculations_pages_witness :
  exists p1 p2,
    admin_calculations (Some 1) (calculations_db 25) =
      render_template "calculations.html"
        (CalculationsContext
           (Some {| items := p1; page := 1; per_page := 20; total := 25 |}))
    /\ admin_calculations (Some 2) (calculations_db 25) =
         render_template "calculations.html"
           (CalculationsContext
              (Some {| items := p2; page := 2; per_page := 20; total := 25 |}))
    /\ admin_calculations (Some 3) (calculations_db 25) =
         render_template "calculations.html"
           (CalculationsContext
              (Some {| items := []; page := 3; per_page := 20; total := 25 |}))
    /\ admin_calculations None (calculations_db 25) =
         admin_calculations (Some 1) (calculations_db 25)
    /\ List.length p1 = 20%nat
    /\ List.length p2 = 5%nat
    /\ p1 ++ p2 =
         order_by_desc calculated_at (delivery_calculations (calculations_db 25))
    /\ Permutation (p1 ++ p2) (delivery_calculations (calculations_db 25))
    /\ StronglySorted (desc calculated_at) (p1 ++ p2)
    /\ (forall x y, In x p1 -> In y p2 -> calculated_at y <= calculated_at x).
Proof.
  apply (@admin_calculations_pages (calculations_db 25)).
  vm_compute. reflexivity.
Defined.

(** C8, as stated, fails: the initialization command is an operation of
    the system, and it removes every stored submission and calculation. *)
Lemma init_db_command_empties_logs :
  List.length (contact_submissions used_db) = 1%nat
  /\ List.length (delivery_calculations used_db) = 1%nat
  /\ contact_submissions (perform InitDb 3 used_db) = []
  /\ delivery_calculations (perform InitDb 3 used_db) = []
  /\ ~ (forall op now db,
          exists submissions calculations,
            contact_submissions (perform op now db) =
              contact_submissions db ++ submissions
            /\ delivery_calculations (perform op now db) =
                 delivery_calculations db ++ calculations).
Proof.
  repeat (split; [vm_compute; reflexivity |]).
  intros H. destruct (H InitDb 3 used_db) as (cs & ds & _ & Hd).
  vm_compute in Hd. discriminate Hd.
Qed.

(** * Further properties of the handlers *)

(** ** Calculate delivery: when it succeeds and how it fails *)

(** X1: A calculation is answered with 200 exactly when the body is an object
    whose distance and weight are numbers that are not [<= 0], can be read
    as floats and are not NaN, the store has a coefficients row, and the
    cost is not NaN. *)
Theorem calculate_delivery_ok_iff (data : value) (now : Z) (db : DB) :
  status (fst (calculate_delivery data now db)) = 200
  <-> exists d w fd fw c,
        get data "distance" VNone = Ok d
        /\ get data "weight" VNone = Ok w
        /\ is_number d = true /\ is_number w = true
        /\ nonpositive d = false /\ nonpositive w = false
        /\ as_float d = Ok fd /\ as_float w = Ok fw
        /\ first (delivery_coefficients db) = Some c
        /\ is_nan fd = false /\ is_nan fw = false
        /\ is_nan (round2 (base_cost c + distance_coefficient c * fd
                           + weight_coefficient c * fw)%float) = false.
Proof.
  split.
  - unfold calculate_delivery.
    destruct (calculate_delivery_try data now db) as [[r s] | e] eqn:E;
      [| discriminate].
    cbn [fst]. intros Hs.
    destruct (calculate_delivery_try_inv _ _ _ E)
      as [[_ Hne] | (d & w & fd & fw & c & Hd & Hw & Id & Iw & Pd & Pw
                     & Fd & Fw & Hc & Nd & Nw & Nc & _)]; [contradiction |].
    exists d, w, fd, fw, c. auto 15.
  - intros (d & w & fd & fw & c & Hd & Hw & Id & Iw & Pd & Pw & Fd & Fw & Hc
            & Nd & Nw & Nc).
    unfold calculate_delivery.
    rewrite (calculate_delivery_try_valid data now db Hd Hw Id Iw Pd Pw
               Fd Fw Hc).
    cbv zeta. now rewrite Nd, Nw, Nc.
Qed.

(** X2: A body that is empty or null is refused with 400 by both JSON routes,
    and a body that is not an object (a list, a string, a number, [true])
    makes [data.get] raise, which both routes answer with 500; the store is
    untouched. *)
Theorem body_must_be_object (data : value) (now : Z) (db : DB) :
  (truthy data = false ->
   calculate_delivery data now db = (json (Error "No data provided") 400, db)
   /\ submit_contact data now db = (json (Error "No data provided") 400, db))
  /\ (truthy data = true -> is_dict data = false ->
      calculate_delivery data now db =
        (json (Failed "Calculation failed: " AttributeError) 500, db)
      /\ submit_contact data now db =
           (json (Failed "Failed to submit contact form: " AttributeError) 500,
            db)).
Proof.
  unfold calculate_delivery, calculate_delivery_try,
    submit_contact, submit_contact_try.
  split.
  - intros ->. split; reflexivity.
  - intros -> Hd. destruct data; try discriminate; split; reflexivity.
Qed.

(** X3: When the body is an object without a distance or without a weight (the
    key is absent or its value is null), the answer is the 400 that asks
    for both, whatever the other field holds. *)
Theorem calculate_delivery_missing_field
    (fields : list (string * value)) (d w : value) (now : Z) (db : DB) :
  fields <> [] ->
  get (VDict fields) "distance" VNone = Ok d ->
  get (VDict fields) "weight" VNone = Ok w ->
  d = VNone \/ w = VNone ->
  calculate_delivery (VDict fields) now db =
    (json (Error "Distance and weight are required") 400, db).
Proof.
  intros Hne Hd Hw Hnone.
  unfold calculate_delivery, calculate_delivery_try.
  assert (truthy (VDict fields) = true) as ->
    by (destruct fields; [congruence | reflexivity]).
  rewrite Hd, Hw. cbn [negb Py.bind].
  assert (is_none d || is_none w = true) as ->; [| reflexivity].
  destruct Hnone as [-> | ->]; [reflexivity | apply orb_true_r].
Qed.

(** X4: A body that passes every check is answered with 500 and the message
    that the coefficients are not configured when the coefficients table
    is empty; nothing is stored. *)
Theorem calculate_delivery_without_coefficients
    (data d w : value) (now : Z) (db : DB) :
  get data "distance" VNone = Ok d ->
  get data "weight" VNone = Ok w ->
  is_number d = true -> is_number w = true ->
  nonpositive d = false -> nonpositive w = false ->
  delivery_coefficients db = [] ->
  calculate_delivery data now db =
    (json (Error "Delivery coefficients not configured. Please initialize the database.") 500,
     db).
Proof.
  intros Hd Hw Id Iw Pd Pw Hc.
  assert (Nd : is_none d = false) by (destruct d; simpl in *; congruence).
  assert (Nw : is_none w = false) by (destruct w; simpl in *; congruence).
  unfold calculate_delivery, calculate_delivery_try.
  rewrite (get_present _ _ Hd Nd), Hd, Hw. cbn [negb Py.bind].
  rewrite Nd, Nw, (le0_number _ Id), (le0_number _ Iw), Pd, Pw, Hc.
  reflexivity.
Qed.

Lemma as_float_number_raise (v : value) (e : exn) :
  is_number v = true -> as_float v = Raise e -> e = OverflowError.
Proof.
  destruct v; simpl; try discriminate.
  unfold float_of_int. intros _. destruct (is_infinity _); congruence.
Qed.

(** X5: An integer distance or weight too large for a float makes the product
    with the coefficient raise [OverflowError]: the answer is 500 and
    nothing is stored, although the body passed the validation. *)
Theorem calculate_delivery_int_overflow
    (data d w : value) (c : DeliveryCoefficients) (now : Z) (db : DB) :
  get data "distance" VNone = Ok d ->
  get data "weight" VNone = Ok w ->
  is_number d = true -> is_number w = true ->
  nonpositive d = false -> nonpositive w = false ->
  first (delivery_coefficients db) = Some c ->
  as_float d = Raise OverflowError \/ as_float w = Raise OverflowError ->
  calculate_delivery data now db =
    (json (Failed "Calculation failed: " OverflowError) 500, db).
Proof.
  intros Hd Hw Id Iw Pd Pw Hc Hov.
  assert (Nd : is_none d = false) by (destruct d; simpl in *; congruence).
  assert (Nw : is_none w = false) by (destruct w; simpl in *; congruence).
  unfold calculate_delivery, calculate_delivery_try, fmul.
  rewrite (get_present _ _ Hd Nd), Hd, Hw. cbn [negb Py.bind].
  rewrite Nd, Nw, (le0_number _ Id), (le0_number _ Iw), Pd, Pw, Hc.
  cbn [orb Py.bind].
  destruct Hov as [Hov | Hov].
  - now rewrite Hov.
  - destruct (as_float d) as [fd | e] eqn:Fd; cbn [Py.bind].
    + now rewrite Hov.
    + now rewrite (as_float_number_raise _ Id Fd).
Qed.


(** Whether the commit of a calculation succeeds does not depend on the
    identifier and the time of the row. *)
Lemma calculation_row_outcome
    (id1 id2 : Z) (d w : value) (cost : float) (now1 now2 : Z) :
  match calculation_row id1 d w cost now1,
        calculation_row id2 d w cost now2 with
  | Ok _, Ok _ => True
  | Raise e1, Raise e2 => e1 = e2
  | _, _ => False
  end.
Proof.
  unfold calculation_row.
  destruct (bind_float d) as [fd | e]; cbn [Py.bind]; [| reflexivity].
  destruct (bind_float w) as [fw | e]; cbn [Py.bind]; [| reflexivity].
  destruct (store_float fd); cbn [Py.bind]; [| reflexivity].
  destruct (store_float fw); cbn [Py.bind]; [| reflexivity].
  destruct (store_float cost); cbn [Py.bind]; [exact I | reflexivity].
Qed.

(** X6: The answer of a calculation depends on the body and on the current
    coefficients row only: two stores with the same first coefficients row
    give the same response, whatever else they hold. *)
Theorem calculate_delivery_ignores_history
    (data : value) (now1 now2 : Z) (db1 db2 : DB) :
  first (delivery_coefficients db1) = first (delivery_coefficients db2) ->
  fst (calculate_delivery data now1 db1) = fst (calculate_delivery data now2 db2).
Proof.
  intros H. unfold calculate_delivery, calculate_delivery_try, fmul.
  rewrite H.
  destruct (negb (truthy data)); [reflexivity |].
  destruct (get data "distance" VNone) as [d | e]; cbn [Py.bind];
    [| reflexivity].
  destruct (get data "weight" VNone) as [w | e]; cbn [Py.bind];
    [| reflexivity].
  destruct (is_none d || is_none w); [reflexivity |].
  destruct (Py.bind (le0 d) _) as [[] | e]; cbn [Py.bind]; try reflexivity.
  destruct (first (delivery_coefficients db2)) as [c |]; [| reflexivity].
  destruct (as_float d) as [fd | e]; cbn [Py.bind]; [| reflexivity].
  destruct (as_float w) as [fw | e]; cbn [Py.bind]; [| reflexivity].
  match goal with
  | |- context [calculation_row ?i1 d w ?cost now1] =>
      match goal with
      | |- context [calculation_row ?i2 d w cost now2] =>
          pose proof (calculation_row_outcome i1 i2 d w cost now1 now2) as Ho;
          destruct (calculation_row i1 d w cost now1),
            (calculation_row i2 d w cost now2)
      end
  end; cbn [Py.bind fst] in *; try contradiction; [reflexivity | now subst].
Qed.

(** ** Contact form: what is stored *)

Lemma next_id_bound {A : Type} (id : A -> Z) (rows : list A) (r : A) :
  In r rows -> id r < next_id id rows.
Proof.
  unfold next_id.
  induction rows as [| x rest IH]; cbn [fold_right In]; [contradiction |].
  intros [<- | H]; [lia |]. specialize (IH H). lia.
Qed.

Lemma next_id_fresh {A : Type} (id : A -> Z) (rows : list A) :
  ~ In (next_id id rows) (map id rows).
Proof.
  intros H. apply in_map_iff in H as (r & E & Hr).
  pose proof (@next_id_bound A id rows r Hr). lia.
Qed.

(** A submission answered with 200 has four text fields (an absent one
    reads as empty) with a name, an address and a message that are not
    blank, and an address that passes the check. *)
Lemma submit_contact_ok_inv (data : value) (now : Z) (db : DB) :
  status (fst (submit_contact data now db)) = 200 ->
  exists nm em ph msg,
    get data "name" (VStr "") = Ok (VStr nm)
    /\ get data "email" (VStr "") = Ok (VStr em)
    /\ get data "phone" (VStr "") = Ok (VStr ph)
    /\ get data "message" (VStr "") = Ok (VStr msg)
    /\ is_empty (strip nm) = false
    /\ is_empty (strip em) = false
    /\ is_empty (strip msg) = false
    /\ email_ok (strip em) = true.
Proof.
  unfold submit_contact, submit_contact_try, email_ok.
  destruct (truthy data); cbn [negb fst status json];
    [| intros H; discriminate H].
  destruct (get data "name" (VStr "")) as [vn | e] eqn:Hn;
    cbn [Py.bind fst status json]; [| intros H; discriminate H].
  destruct vn as [| | | | nm | |];
    cbn [Py.bind strip_value fst status json]; try (intros H; discriminate H).
  destruct (get data "email" (VStr "")) as [ve | e] eqn:He;
    cbn [Py.bind fst status json]; [| intros H; discriminate H].
  destruct ve as [| | | | em | |];
    cbn [Py.bind strip_value fst status json]; try (intros H; discriminate H).
  destruct (get data "phone" (VStr "")) as [vp | e] eqn:Hp;
    cbn [Py.bind fst status json]; [| intros H; discriminate H].
  destruct vp as [| | | | ph | |];
    cbn [Py.bind strip_value fst status json]; try (intros H; discriminate H).
  destruct (get data "message" (VStr "")) as [vm | e] eqn:Hm;
    cbn [Py.bind fst status json]; [| intros H; discriminate H].
  destruct vm as [| | | | msg | |];
    cbn [Py.bind strip_value fst status json]; try (intros H; discriminate H).
  destruct (is_empty (strip nm)) eqn:En; cbn [orb fst status json];
    [intros H; discriminate H |].
  destruct (is_empty (strip em)) eqn:Ee; cbn [orb fst status json];
    [intros H; discriminate H |].
  destruct (is_empty (strip msg)) eqn:Em; cbn [orb fst status json];
    [intros H; discriminate H |].
  destruct (negb (contains "@" (strip em)) || negb (contains "." (strip em)))
    eqn:Ec; cbn [fst status json]; [intros H; discriminate H |].
  intros _. exists nm, em, ph, msg.
  repeat (split; [first [assumption | reflexivity] |]).
  now rewrite Ec.
Qed.

(** X7: A contact submission answered with 200 appends exactly one row: the
    trimmed name, address and message of the body, the trimmed phone number
    or nothing when it is blank or absent, the time of the request, and an
    identifier that no stored submission has, which the answer returns; the
    other tables are untouched. *)
Theorem submit_contact_success_appends_one
    (data : value) (now : Z) (db : DB) :
  status (fst (submit_contact data now db)) = 200 ->
  exists nm em ph msg row,
    get data "name" (VStr "") = Ok (VStr nm)
    /\ get data "email" (VStr "") = Ok (VStr em)
    /\ get data "phone" (VStr "") = Ok (VStr ph)
    /\ get data "message" (VStr "") = Ok (VStr msg)
    /\ contact_submissions (snd (submit_contact data now db)) =
         contact_submissions db ++ [row]
    /\ name row = strip nm
    /\ email row = strip em
    /\ phone row = (if is_empty (strip ph) then None else Some (strip ph))
    /\ message row = strip msg
    /\ submitted_at row = now
    /\ ~ In (submission_id row) (map submission_id (contact_submissions db))
    /\ content (fst (submit_contact data now db)) =
         Submitted "Thank you for your message! We'll get back to you soon."
           (submission_id row)
    /\ delivery_coefficients (snd (submit_contact data now db)) =
         delivery_coefficients db
    /\ delivery_calculations (snd (submit_contact data now db)) =
         delivery_calculations db.
Proof.
  intros Hs.
  destruct (submit_contact_ok_inv _ _ _ Hs)
    as (nm & em & ph & msg & Hn & He & Hp & Hm & En & Ee & Em & Ok_).
  rewrite (submit_contact_text_fields data now db Hn He Hp Hm En Em), Ee, Ok_.
  eexists nm, em, ph, msg, _.
  repeat (split; [first [eassumption | reflexivity] |]).
  split; [apply next_id_fresh |].
  repeat (split; [reflexivity |]). reflexivity.
Qed.

(** X8: Nothing is deduplicated: a submission that was accepted is accepted
    again, and the two requests leave two rows with the same content and
    different identifiers. *)
Theorem duplicate_submissions_are_kept
    (data : value) (t1 t2 : Z) (db : DB) :
  status (fst (submit_contact data t1 db)) = 200 ->
  status (fst (submit_contact data t2 (snd (submit_contact data t1 db)))) = 200
  /\ exists r1 r2,
       contact_submissions
         (snd (submit_contact data t2 (snd (submit_contact data t1 db)))) =
         contact_submissions db ++ [r1; r2]
       /\ name r1 = name r2
       /\ email r1 = email r2
       /\ phone r1 = phone r2
       /\ message r1 = message r2
       /\ submission_id r1 <> submission_id r2.
Proof.
  intros Hs.
  destruct (submit_contact_ok_inv _ _ _ Hs)
    as (nm & em & ph & msg & Hn & He & Hp & Hm & En & Ee & Em & Ok_).
  rewrite !(submit_contact_text_fields data _ _ Hn He Hp Hm En Em), Ee, Ok_.
  cbv zeta. cbn [fst snd status json_ok json].
  split; [reflexivity |].
  eexists _, _. cbn [add_submission contact_submissions].
  rewrite <- app_assoc. cbn [app].
  split; [reflexivity |]. cbn [name email phone message submission_id].
  repeat (split; [reflexivity |]).
  set (r1 := {| submission_id := next_id submission_id (contact_submissions db);
                name := strip nm; email := strip em;
                phone := if is_empty (strip ph) then None else Some (strip ph);
                message := strip msg; submitted_at := t1 |}).
  assert (Hb : submission_id r1
               < next_id submission_id (contact_submissions db ++ [r1])).
  { apply next_id_bound, in_or_app. right. left. reflexivity. }
  cbn [submission_id r1] in Hb. fold r1. lia.
Qed.

Lemma strip_value_raise (v : value) (e : exn) :
  strip_value v = Raise e -> e = AttributeError.
Proof. destruct v; simpl; congruence. Qed.

Lemma strip_value_not_str (v : value) :
  is_str v = false -> strip_value v = Raise AttributeError.
Proof. destruct v; simpl; congruence. Qed.

(** X9: A field of the submission that holds anything but a string (a number,
    a list, null: also for the optional phone number) makes [strip] raise:
    the answer is 500 and nothing is stored. *)
Theorem submit_contact_non_text_field
    (fields : list (string * value)) (key : string) (v : value)
    (now : Z) (db : DB) :
  fields <> [] ->
  In key ["name"; "email"; "phone"; "message"] ->
  get (VDict fields) key (VStr "") = Ok v ->
  is_str v = false ->
  submit_contact (VDict fields) now db =
    (json (Failed "Failed to submit contact form: " AttributeError) 500, db).
Proof.
  intros Hne Hin Hg Hs.
  apply strip_value_not_str in Hs.
  unfold submit_contact, submit_contact_try.
  assert (truthy (VDict fields) = true) as ->
    by (destruct fields; [congruence | reflexivity]).
  cbn [negb].
  assert (R : forall k, exists vk, get (VDict fields) k (VStr "") = Ok vk)
    by (intros; eexists; reflexivity).
  destruct (R "name") as [vn Hn], (R "email") as [ve He],
    (R "phone") as [vp Hp], (R "message") as [vm Hm].
  rewrite Hn, He, Hp, Hm. cbn [Py.bind].
  assert (Hkey : vn = v \/ ve = v \/ vp = v \/ vm = v).
  { simpl in Hin.
    destruct Hin as [<- | [<- | [<- | [<- | []]]]]; intuition congruence. }
  destruct (strip_value vn) as [sn | en] eqn:Sn; cbn [Py.bind];
    [| now rewrite (strip_value_raise _ Sn)].
  destruct (strip_value ve) as [se | ee] eqn:Se; cbn [Py.bind];
    [| now rewrite (strip_value_raise _ Se)].
  destruct (strip_value vp) as [sp | ep] eqn:Sp; cbn [Py.bind];
    [| now rewrite (strip_value_raise _ Sp)].
  destruct (strip_value vm) as [sm | em] eqn:Sm; cbn [Py.bind];
    [| now rewrite (strip_value_raise _ Sm)].
  destruct Hkey as [-> | [-> | [-> | ->]]]; congruence.
Qed.

(** ** Every route: statuses and failed requests *)

Ltac settle_status :=
  cbn [fst snd status json json_ok redirect render_template In];
  split; [lia | intros; first [reflexivity | lia]].

(** X10: Every route answers with one of the statuses 200, 302, 400, 404 and
    500, and a request answered with 400, 404 or 500 leaves the three
    tables exactly as they were. *)
Theorem failed_request_keeps_store (r : request) (now : Z) (db : DB) :
  In (status (fst (handle r now db))) [200; 302; 400; 404; 500]
  /\ (400 <= status (fst (handle r now db)) -> snd (handle r now db) = db).
Proof.
  destruct r as [data | data | | | form | p | p | |]; cbn [handle];
    unfold admin_dashboard, admin_calculations, admin_contacts, index,
      health_check.
  - unfold calculate_delivery, calculate_delivery_try, fmul.
    repeat case_step; settle_status.
  - unfold submit_contact, submit_contact_try.
    repeat case_step; settle_status.
  - unfold get_coefficients, get_coefficients_try.
    cbn [first_coefficients Py.bind]. case_step; settle_status.
  - settle_status.
  - destruct (form_float form "distance_coefficient" 0.5) as [dc | e1] eqn:E1.
    2:{ rewrite update_coefficients_unparsed; [settle_status |].
        exists "distance_coefficient", 0.5%float, e1. simpl. auto. }
    destruct (form_float form "weight_coefficient" 0.5) as [wc | e2] eqn:E2.
    2:{ rewrite update_coefficients_unparsed; [settle_status |].
        exists "weight_coefficient", 0.5%float, e2. simpl. auto. }
    destruct (form_float form "base_cost" 5.0) as [bc | e3] eqn:E3.
    2:{ rewrite update_coefficients_unparsed; [settle_status |].
        exists "base_cost", 5.0%float, e3. simpl. auto. }
    rewrite (update_coefficients_parsed form now db E1 E2 E3).
    repeat case_step; settle_status.
  - settle_status.
  - settle_status.
  - settle_status.
  - settle_status.
Qed.

(** ** Coefficients: what an update changes *)

(** X11: An update writes to the first coefficients row only: the row keeps its
    identifier and its place, and the rows after it are not touched. *)
Theorem update_coefficients_first_row_only
    (form : list (string * string)) (now : Z) (db : DB)
    (c : DeliveryCoefficients) (rest : list DeliveryCoefficients) :
  delivery_coefficients db = c :: rest ->
  exists c',
    delivery_coefficients (snd (update_coefficients form now db)) = c' :: rest
    /\ coefficients_id c' = coefficients_id c.
Proof.
  intros H.
  destruct (update_coefficients_cases form now db)
    as [-> | (dc & wc & bc & _ & _ & _ & _ & _ & _ & _ & _ & _ & ->)].
  - exists c. now split.
  - rewrite H. eexists. split; reflexivity.
Qed.

(** X12: A form that holds none of the three fields stores the defaults of the
    handler, 0.5, 0.5 and 5.0, over whatever the current row held. *)
Theorem update_coefficients_empty_form_resets
    (form : list (string * string)) (now : Z) (db : DB) :
  lookup "distance_coefficient" form = None ->
  lookup "weight_coefficient" form = None ->
  lookup "base_cost" form = None ->
  exists c,
    first (delivery_coefficients (snd (update_coefficients form now db))) = Some c
    /\ distance_coefficient c = 0.5%float
    /\ weight_coefficient c = 0.5%float
    /\ base_cost c = 5.0%float
    /\ updated_at c = now.
Proof.
  intros H1 H2 H3.
  rewrite (@update_coefficients_parsed form now db 0.5 0.5 5.0)
    by (unfold form_float; rewrite ?H1, ?H2, ?H3; reflexivity).
  change ((0.5 <? 0)%float || (0.5 <? 0)%float || (5 <? 0)%float) with false.
  change (is_nan 0.5 || is_nan 0.5 || is_nan 5) with false.
  cbn [snd].
  destruct (delivery_coefficients db) as [| c rest] eqn:Hc.
  - cbn [add_coefficients delivery_coefficients]. rewrite Hc.
    eexists. repeat split.
  - eexists. repeat split.
Qed.


(** ** Trimming *)

Lemma rstrip_idempotent (s : string) : rstrip (rstrip s) = rstrip s.
Proof.
  induction s as [| c s IH]; [reflexivity |].
  cbn [rstrip]. destruct (rstrip s) as [| d u] eqn:E.
  - destruct (is_space c) eqn:Ec; [reflexivity |].
    cbn [rstrip]. now rewrite Ec.
  - cbn [rstrip] in *. now rewrite IH.
Qed.

Lemma lstrip_starts_clean (s : string) : starts_clean (lstrip s).
Proof.
  induction s as [| c s IH]; simpl; [exact I |].
  destruct (is_space c) eqn:E; [exact IH | exact E].
Qed.

Lemma lstrip_clean (s : string) : starts_clean s -> lstrip s = s.
Proof. destruct s as [| c s]; simpl; [reflexivity |]. now intros ->. Qed.

Lemma rstrip_starts_clean (s : string) :
  starts_clean s -> starts_clean (rstrip s).
Proof.
  destruct s as [| c s]; cbn [rstrip starts_clean]; [trivial |].
  intros E. destruct (rstrip s); [rewrite E |]; exact E.
Qed.

Lemma strip_idempotent (s : string) : strip (strip s) = strip s.
Proof.
  unfold strip.
  rewrite (@lstrip_clean _ (@rstrip_starts_clean _ (lstrip_starts_clean s))).
  apply rstrip_idempotent.
Qed.

(** ** What a request does to each table *)

Lemma calculate_delivery_row (data : value) (now : Z) (db : DB) :
  snd (calculate_delivery data now db) = db
  \/ exists row,
       snd (calculate_delivery data now db) = add_calculation row db
       /\ calculation_id row = next_id calculation_id (delivery_calculations db)
       /\ calculation_valid row.
Proof.
  unfold calculate_delivery.
  destruct (calculate_delivery_try data now db) as [[r s] | e] eqn:E;
    [| left; reflexivity].
  destruct (calculate_delivery_try_inv _ _ _ E)
    as [[-> _] | (d & w & fd & fw & c & _ & _ & Id & Iw & Pd & Pw & Fd & Fw
                  & _ & Nd & Nw & Nc & _ & ->)];
    [left; reflexivity |].
  right. eexists. split; [reflexivity |]. split; [reflexivity |].
  unfold calculation_valid. cbn [distance weight calculated_cost].
  split; [exact (as_float_positive _ Id Pd Fd Nd) |].
  split; [exact (as_float_positive _ Iw Pw Fw Nw) |].
  apply sqlite_real_not_nan. exact Nc.
Qed.

Lemma submit_contact_row (data : value) (now : Z) (db : DB) :
  snd (submit_contact data now db) = db
  \/ exists row,
       snd (submit_contact data now db) = add_submission row db
       /\ submission_id row = next_id submission_id (contact_submissions db)
       /\ submission_valid row.
Proof.
  destruct (submit_contact_store data now db) as [E | (row0 & Hs & _)];
    [now left |].
  destruct (submit_contact_ok_inv _ _ _ Hs)
    as (nm & em & ph & msg & Hn & He & Hp & Hm & En & Ee & Em & Ok_).
  rewrite (submit_contact_text_fields data now db Hn He Hp Hm En Em), Ee, Ok_.
  right. eexists. split; [reflexivity |]. split; [reflexivity |].
  unfold submission_valid. cbn [name email message phone].
  rewrite !strip_idempotent.
  repeat (split; [first [assumption | reflexivity] |]).
  destruct (is_empty (strip ph)) eqn:Ep; [exact I |].
  now rewrite strip_idempotent.
Qed.

(** The effect of one request on each of the three tables. *)
Lemma handle_tables (r : request) (now : Z) (db : DB) :
  (delivery_coefficients (snd (handle r now db)) = delivery_coefficients db
   \/ exists c,
        coefficients_valid c
        /\ match delivery_coefficients db with
           | old :: rest =>
               coefficients_id c = coefficients_id old
               /\ delivery_coefficients (snd (handle r now db)) = c :: rest
           | [] =>
               coefficients_id c = 1
               /\ delivery_coefficients (snd (handle r now db)) = [c]
           end)
  /\ (contact_submissions (snd (handle r now db)) = contact_submissions db
      \/ exists row,
           contact_submissions (snd (handle r now db)) =
             contact_submissions db ++ [row]
           /\ submission_id row = next_id submission_id (contact_submissions db)
           /\ submission_valid row)
  /\ (delivery_calculations (snd (handle r now db)) = delivery_calculations db
      \/ exists row,
           delivery_calculations (snd (handle r now db)) =
             delivery_calculations db ++ [row]
           /\ calculation_id row =
                next_id calculation_id (delivery_calculations db)
           /\ calculation_valid row).
Proof.
  destruct r as [data | data | | | form | p | p | |]; cbn [handle snd];
    try (repeat split; left; reflexivity).
  - destruct (calculate_delivery_row data now db) as [-> | (row & -> & Hi & Hv)].
    + repeat split; left; reflexivity.
    + split; [left; reflexivity |]. split; [left; reflexivity |].
      right. exists row. auto.
  - destruct (submit_contact_row data now db) as [-> | (row & -> & Hi & Hv)].
    + repeat split; left; reflexivity.
    + split; [left; reflexivity |]. split; [| left; reflexivity].
      right. exists row. auto.
  - destruct (update_coefficients_cases form now db)
      as [-> | (dc & wc & bc & _ & _ & _ & N1 & N2 & N3 & _ & _ & _ & ->)].
    + repeat split; left; reflexivity.
    + split; [| split; left; destruct (delivery_coefficients db); reflexivity].
      rewrite <- sqlite_real_ltb in N1, N2, N3.
      right. destruct (delivery_coefficients db) as [| old rest] eqn:Hc.
      * exists {| coefficients_id := 1;
                  distance_coefficient := sqlite_real dc;
                  weight_coefficient := sqlite_real wc;
                  base_cost := sqlite_real bc;
                  updated_at := now |}.
        split; [split; [exact N1 | split; [exact N2 | exact N3]] |].
        split; [reflexivity |].
        cbn [add_coefficients delivery_coefficients]. now rewrite Hc.
      * exists {| coefficients_id := coefficients_id old;
                  distance_coefficient := sqlite_real dc;
                  weight_coefficient := sqlite_real wc;
                  base_cost := sqlite_real bc;
                  updated_at := now |}.
        split; [split; [exact N1 | split; [exact N2 | exact N3]] |].
        split; reflexivity.
Qed.

Lemma serve_invariant (P : DB -> Prop) :
  (forall r now db, P db -> P (snd (handle r now db))) ->
  forall rs db, P db -> P (serve rs db).
Proof.
  intros Step rs. induction rs as [| [r now] rest IH]; intros db H;
    cbn [serve]; auto.
Qed.

(** ** Invariants of the store *)

(** X14: Once the initialization command has run, whatever requests follow, the
    coefficients table holds exactly one row, with identifier 1 and no
    coefficient below zero. *)
Theorem one_coefficients_row_after_init
    (rs : list (request * Z)) (now : Z) (db : DB) :
  exists c,
    delivery_coefficients (serve rs (init_db_command now db)) = [c]
    /\ coefficients_id c = 1
    /\ coefficients_valid c.
Proof.
  apply (@serve_invariant
           (fun s => exists c, delivery_coefficients s = [c]
                               /\ coefficients_id c = 1
                               /\ coefficients_valid c)).
  - intros r t s (c & Hc & Hi & Hv).
    destruct (handle_tables r t s) as [[E | (c' & Hv' & H)] _].
    + exists c. now rewrite E.
    + rewrite Hc in H. destruct H as [Hi' E]. exists c'.
      repeat split; [exact E | congruence | apply Hv' ..].
  - eexists. split; [reflexivity |]. split; [reflexivity |].
    repeat split.
Qed.

(** X15: No request stores a coefficient below zero: if no row of the
    coefficients table has one, no row has one after any sequence of
    requests. *)
Theorem coefficients_stay_non_negative (rs : list (request * Z)) (db : DB) :
  Forall coefficients_valid (delivery_coefficients db) ->
  Forall coefficients_valid (delivery_coefficients (serve rs db)).
Proof.
  apply (@serve_invariant
           (fun s => Forall coefficients_valid (delivery_coefficients s))).
  intros r t s H.
  destruct (handle_tables r t s) as [[E | (c' & Hv' & H')] _].
  - now rewrite E.
  - destruct (delivery_coefficients s) as [| old rest].
    + destruct H' as [_ ->]. constructor; [exact Hv' | constructor].
    + destruct H' as [_ ->]. apply Forall_inv_tail in H.
      constructor; [exact Hv' | exact H].
Qed.

(** X16: Every calculation that a request stores has a distance and a weight
    that are floats above zero, and a cost that is not NaN. *)
Theorem stored_calculations_are_valid (rs : list (request * Z)) (db : DB) :
  Forall calculation_valid (delivery_calculations db) ->
  Forall calculation_valid (delivery_calculations (serve rs db)).
Proof.
  apply (@serve_invariant
           (fun s => Forall calculation_valid (delivery_calculations s))).
  intros r t s H.
  destruct (handle_tables r t s) as (_ & _ & [E | (row & E & _ & Hv)]);
    rewrite E; [exact H |].
  apply Forall_app. split; [exact H | constructor; [exact Hv | constructor]].
Qed.

(** X17: Every submission that a request stores has a name, an address and a
    message that are trimmed and not empty, an address that holds an ['@']
    and a ['.'], and a phone number that is absent or trimmed and not
    empty. *)
Theorem stored_submissions_are_valid (rs : list (request * Z)) (db : DB) :
  Forall submission_valid (contact_submissions db) ->
  Forall submission_valid (contact_submissions (serve rs db)).
Proof.
  apply (@serve_invariant
           (fun s => Forall submission_valid (contact_submissions s))).
  intros r t s H.
  destruct (handle_tables r t s) as (_ & [E | (row & E & _ & Hv)] & _);
    rewrite E; [exact H |].
  apply Forall_app. split; [exact H | constructor; [exact Hv | constructor]].
Qed.

Lemma NoDup_snoc_fresh {A B : Type} (id : A -> B) (rows : list A) (row : A) :
  NoDup (map id rows) -> ~ In (id row) (map id rows) ->
  NoDup (map id (rows ++ [row])).
Proof.
  intros Hn Hf. rewrite map_app. cbn [map].
  induction (map id rows) as [| x l IH]; cbn [app].
  - constructor; [intros [] | constructor].
  - inversion Hn; subst. constructor.
    + rewrite in_app_iff. cbn [In]. intros [H | [H | []]]; [contradiction |].
      apply Hf. now left.
    + apply IH; [assumption |]. intros H. apply Hf. now right.
Qed.

(** X18: Primary keys stay unique: if the identifiers of each table are
    pairwise distinct, they are so after any sequence of requests. *)
Theorem identifiers_stay_unique (rs : list (request * Z)) (db : DB) :
  unique_ids db -> unique_ids (serve rs db).
Proof.
  apply (@serve_invariant unique_ids).
  intros r t s (Hc & Hs & Hd).
  destruct (handle_tables r t s) as (Tc & Ts & Td).
  split; [| split].
  - destruct Tc as [-> | (c' & _ & H)]; [exact Hc |].
    destruct (delivery_coefficients s) as [| old rest].
    + destruct H as [_ ->]. repeat constructor. intros [].
    + destruct H as [Hi ->]. cbn [map] in *. now rewrite Hi.
  - destruct Ts as [-> | (row & -> & Hi & _)]; [exact Hs |].
    apply NoDup_snoc_fresh; [exact Hs |]. rewrite Hi. apply next_id_fresh.
  - destruct Td as [-> | (row & -> & Hi & _)]; [exact Hd |].
    apply NoDup_snoc_fresh; [exact Hd |]. rewrite Hi. apply next_id_fresh.
Qed.

(** ** Listings *)

Lemma firstn_plus {A : Type} (a b : nat) (l : list A) :
  firstn (a + b) l = firstn a l ++ firstn b (skipn a l).
Proof.
  revert l. induction a as [| a IH]; intros l; [reflexivity |].
  destruct l as [| x l]; cbn [Nat.add firstn skipn app].
  - now rewrite firstn_nil.
  - now rewrite IH.
Qed.

Lemma pages_concat {A : Type} (per_page : nat) (rows : list A) (n : nat) :
  List.concat (map (fun k => items (paginate (Z.of_nat k) per_page rows)) (seq 1 n))
  = firstn (n * per_page) rows.
Proof.
  induction n as [| n IH]; [reflexivity |].
  rewrite seq_S, map_app, List.concat_app, IH. cbn [map List.concat Nat.add].
  rewrite app_nil_r. unfold paginate. cbn [items].
  assert ((Z.of_nat (S n) <? 1) = false) as -> by (apply Z.ltb_ge; lia).
  replace (Z.to_nat (Z.of_nat (S n) - 1)) with n by lia.
  replace (S n * per_page)%nat with (n * per_page + per_page)%nat by lia.
  symmetry. apply firstn_plus.
Qed.

(** X19: Page [p] of either listing (a page below 1 reads as page 1) is a
    window of at most 20 rows on the table sorted with the most recent
    first: its row [i] is row [(p - 1) * 20 + i] of the sorted table. *)
Theorem listing_page_is_a_window (page_arg : option Z) (db : DB) (i : nat) :
  (i < 20)%nat ->
  nth_error (listed_calculations (admin_calculations page_arg db)) i =
    nth_error (order_by_desc calculated_at (delivery_calculations db))
      (Z.to_nat (Z.max 1 (page_of page_arg) - 1) * 20 + i)
  /\ nth_error (listed_contacts (admin_contacts page_arg db)) i =
       nth_error (order_by_desc submitted_at (contact_submissions db))
         (Z.to_nat (Z.max 1 (page_of page_arg) - 1) * 20 + i)
  /\ (List.length (listed_calculations (admin_calculations page_arg db)) <= 20)%nat
  /\ (List.length (listed_contacts (admin_contacts page_arg db)) <= 20)%nat.
Proof.
  intros Hi.
  unfold admin_calculations, admin_contacts, listed_calculations,
    listed_contacts, render_template, paginate.
  cbn [content items].
  assert (E : (if page_of page_arg <? 1 then 1 else page_of page_arg)
              = Z.max 1 (page_of page_arg)).
  { destruct (page_of page_arg <? 1) eqn:L; lia. }
  rewrite E.
  rewrite !nth_error_firstn, !nth_error_skipn.
  apply Nat.ltb_lt in Hi. rewrite Hi.
  repeat split; apply firstn_le_length.
Qed.

(** X20: The first [n] pages of either listing, one after the other, are the
    first [20 * n] rows of the sorted table: no row is skipped or shown
    twice, and with enough pages every stored row is shown once. *)
Theorem listing_pages_cover (db : DB) (n : nat) :
  List.concat (map (fun k => listed_calculations
                          (admin_calculations (Some (Z.of_nat k)) db))
            (seq 1 n))
  = firstn (n * 20) (order_by_desc calculated_at (delivery_calculations db))
  /\ List.concat (map (fun k => listed_contacts
                             (admin_contacts (Some (Z.of_nat k)) db))
               (seq 1 n))
     = firstn (n * 20) (order_by_desc submitted_at (contact_submissions db))
  /\ ((List.length (delivery_calculations db) <= n * 20)%nat ->
      Permutation
        (List.concat (map (fun k => listed_calculations
                                 (admin_calculations (Some (Z.of_nat k)) db))
                   (seq 1 n)))
        (delivery_calculations db))
  /\ ((List.length (contact_submissions db) <= n * 20)%nat ->
      Permutation
        (List.concat (map (fun k => listed_contacts
                                 (admin_contacts (Some (Z.of_nat k)) db))
                   (seq 1 n)))
        (contact_submissions db)).
Proof.
  assert (C : List.concat (map (fun k => listed_calculations
                          (admin_calculations (Some (Z.of_nat k)) db))
            (seq 1 n))
  = firstn (n * 20) (order_by_desc calculated_at (delivery_calculations db)))
    by apply (pages_concat 20).
  assert (S : List.concat (map (fun k => listed_contacts
                             (admin_contacts (Some (Z.of_nat k)) db))
               (seq 1 n))
     = firstn (n * 20) (order_by_desc submitted_at (contact_submissions db)))
    by apply (pages_concat 20).
  split; [exact C |]. split; [exact S |]. split; intros H.
  - rewrite C, firstn_all2 by now rewrite order_by_desc_length.
    apply order_by_desc_perm.
  - rewrite S, firstn_all2 by now rewrite order_by_desc_length.
    apply order_by_desc_perm.
Qed.

(** X21: The dashboard shows the current coefficients row and, of each log, the
    10 most recent rows (all of them when there are fewer), the most
    recent first: no row that is left out is more recent than a row that
    is shown. *)
Theorem dashboard_shows_latest (db : DB) :
  exists older_calculations older_contacts,
    content (admin_dashboard db) =
      Template "admin.html"
        (AdminContext (first (delivery_coefficients db))
           (listed_calculations (admin_dashboard db))
           (listed_contacts (admin_dashboard db)))
    /\ List.length (listed_calculations (admin_dashboard db)) =
         Nat.min 10 (List.length (delivery_calculations db))
    /\ List.length (listed_contacts (admin_dashboard db)) =
         Nat.min 10 (List.length (contact_submissions db))
    /\ Permutation (listed_calculations (admin_dashboard db) ++ older_calculations)
         (delivery_calculations db)
    /\ Permutation (listed_contacts (admin_dashboard db) ++ older_contacts)
         (contact_submissions db)
    /\ StronglySorted (desc calculated_at)
         (listed_calculations (admin_dashboard db) ++ older_calculations)
    /\ StronglySorted (desc submitted_at)
         (listed_contacts (admin_dashboard db) ++ older_contacts).
Proof.
  exists (skipn 10 (order_by_desc calculated_at (delivery_calculations db))),
         (skipn 10 (order_by_desc submitted_at (contact_submissions db))).
  unfold admin_dashboard, listed_calculations, listed_contacts,
    render_template, limit.
  cbn [content].
  rewrite !length_firstn, !order_by_desc_length, !firstn_skipn.
  repeat split;
    first [apply order_by_desc_perm | apply order_by_desc_sorted].
Qed.

(** ** The address of the database *)

Lemma replace_first_at_start (old new s : string) :
  String.prefix old s = true ->
  replace_first old new s = (new ++ drop (String.length old) s)%string.
Proof. intros H. destruct s; cbn [replace_first]; now rewrite H. Qed.

Lemma prefix_append (p rest : string) : String.prefix p (p ++ rest) = true.
Proof.
  induction p as [| a p IH]; cbn [String.append].
  - destruct rest; reflexivity.
  - cbn [String.prefix]. destruct (ascii_dec a a); [exact IH | congruence].
Qed.

Lemma drop_append (p rest : string) :
  drop (String.length p) (p ++ rest) = rest.
Proof. induction p; cbn [String.length String.append drop]; trivial. Qed.

(** X22: The address used for the database is the one given, except that a
    leading ["postgres://"] is written ["postgresql://"]: what follows the
    scheme is kept as it is, an address with another scheme is not touched,
    and the result never begins with ["postgres://"]. *)
Theorem database_uri_scheme (env_url : option string) (sqlite_url : string) :
  (forall rest,
     env_url = Some ("postgres://" ++ rest)%string ->
     database_uri env_url sqlite_url = ("postgresql://" ++ rest)%string)
  /\ (forall url,
        env_url = Some url -> startswith url "postgres://" = false ->
        database_uri env_url sqlite_url = url)
  /\ (env_url = None -> startswith sqlite_url "postgres://" = false ->
      database_uri env_url sqlite_url = sqlite_url)
  /\ startswith (database_uri env_url sqlite_url) "postgres://" = false.
Proof.
  split; [| split; [| split]].
  - intros rest ->. unfold database_uri, startswith.
    rewrite prefix_append.
    rewrite (@replace_first_at_start "postgres://" "postgresql://" _
               (prefix_append "postgres://" rest)).
    now rewrite drop_append.
  - intros url -> H. unfold database_uri. now rewrite H.
  - intros -> H. unfold database_uri. now rewrite H.
  - unfold database_uri.
    set (url := match env_url with Some u => u | None => sqlite_url end).
    destruct (startswith url "postgres://") eqn:E; [| exact E].
    unfold startswith in E.
    rewrite (@replace_first_at_start "postgres://" "postgresql://" url E).
    reflexivity.
Qed.

(** ** The further properties at the sample requests *)

(** A list is answered with 500 and the empty object with 400. *)
Lemma body_must_be_object_witness :
  calculate_delivery list_body 1 seeded_db =
    (json (Failed "Calculation failed: " AttributeError) 500, seeded_db)
  /\ submit_contact (VDict []) 1 seeded_db =
       (json (Error "No data provided") 400, seeded_db).
Proof.
  split.
  - exact (proj1 (proj2 (body_must_be_object list_body 1 seeded_db)
                    eq_refl eq_refl)).
  - exact (proj2 (proj1 (body_must_be_object (VDict []) 1 seeded_db) eq_refl)).
Defined.

(** A body with a distance that is a string and no weight is asked for
    both fields. *)
Lemma calculate_delivery_missing_field_witness :
  calculate_delivery (VDict distance_only_fields) 1 seeded_db =
    (json (Error "Distance and weight are required") 400, seeded_db).
Proof.
  apply (@calculate_delivery_missing_field distance_only_fields
           (VStr "abc") VNone 1 seeded_db).
  - discriminate.
  - reflexivity.
  - reflexivity.
  - right. reflexivity.
Defined.

(** The sample body on a store whose tables are empty. *)
Lemma calculate_delivery_without_coefficients_witness :
  calculate_delivery sample_body 1 empty_db =
    (json (Error "Delivery coefficients not configured. Please initialize the database.") 500,
     empty_db).
Proof.
  exact (@calculate_delivery_without_coefficients sample_body (VInt 10)
           (VInt 2) 1 empty_db eq_refl eq_refl eq_refl eq_refl eq_refl eq_refl
           eq_refl).
Defined.

(** A distance of [10 ** 400]. *)
Lemma calculate_delivery_int_overflow_witness :
  calculate_delivery huge_distance_body 1 seeded_db =
    (json (Failed "Calculation failed: " OverflowError) 500, seeded_db).
Proof.
  apply (@calculate_delivery_int_overflow huge_distance_body
           (VInt (10 ^ 400)) (VInt 2) (default_coeffs 0 empty_db) 1 seeded_db);
    try reflexivity.
  left. vm_compute. reflexivity.
Defined.

(** The sample body costs the same on the fresh store and on the store in
    use. *)
Lemma calculate_delivery_ignores_history_witness :
  fst (calculate_delivery sample_body 1 seeded_db) =
    fst (calculate_delivery sample_body 5 used_db).
Proof.
  exact (@calculate_delivery_ignores_history sample_body 1 5 seeded_db used_db
           eq_refl).
Defined.

(** Ann's submission, with blanks around the address. *)
Lemma submit_contact_success_appends_one_witness :
  exists nm em ph msg row,
    get (contact_body " a@b.com ") "name" (VStr "") = Ok (VStr nm)
    /\ get (contact_body " a@b.com ") "email" (VStr "") = Ok (VStr em)
    /\ get (contact_body " a@b.com ") "phone" (VStr "") = Ok (VStr ph)
    /\ get (contact_body " a@b.com ") "message" (VStr "") = Ok (VStr msg)
    /\ contact_submissions (snd (submit_contact (contact_body " a@b.com ") 1 seeded_db)) =
         contact_submissions seeded_db ++ [row]
    /\ name row = strip nm
    /\ email row = strip em
    /\ phone row = (if is_empty (strip ph) then None else Some (strip ph))
    /\ message row = strip msg
    /\ submitted_at row = 1
    /\ ~ In (submission_id row) (map submission_id (contact_submissions seeded_db))
    /\ content (fst (submit_contact (contact_body " a@b.com ") 1 seeded_db)) =
         Submitted "Thank you for your message! We'll get back to you soon."
           (submission_id row)
    /\ delivery_coefficients (snd (submit_contact (contact_body " a@b.com ") 1 seeded_db)) =
         delivery_coefficients seeded_db
    /\ delivery_calculations (snd (submit_contact (contact_body " a@b.com ") 1 seeded_db)) =
         delivery_calculations seeded_db.
Proof.
  exact (@submit_contact_success_appends_one (contact_body " a@b.com ") 1
           seeded_db eq_refl).
Defined.

(** The same submission sent twice. *)
Lemma duplicate_submissions_are_kept_witness :
  status (fst (submit_contact (contact_body "a@b.com") 2
                 (snd (submit_contact (contact_body "a@b.com") 1 seeded_db)))) = 200
  /\ exists r1 r2,
       contact_submissions
         (snd (submit_contact (contact_body "a@b.com") 2
                 (snd (submit_contact (contact_body "a@b.com") 1 seeded_db)))) =
         contact_submissions seeded_db ++ [r1; r2]
       /\ name r1 = name r2
       /\ email r1 = email r2
       /\ phone r1 = phone r2
       /\ message r1 = message r2
       /\ submission_id r1 <> submission_id r2.
Proof.
  exact (@duplicate_submissions_are_kept (contact_body "a@b.com") 1 2
           seeded_db eq_refl).
Defined.

(** A phone number that is null. *)
Lemma submit_contact_non_text_field_witness :
  submit_contact (VDict null_phone_fields) 1 seeded_db =
    (json (Failed "Failed to submit contact form: " AttributeError) 500,
     seeded_db).
Proof.
  apply (@submit_contact_non_text_field null_phone_fields "phone" VNone 1
           seeded_db).
  - discriminate.
  - right. right. left. reflexivity.
  - reflexivity.
  - reflexivity.
Defined.

(** A distance of zero: 400, and the store as it was. *)
Lemma failed_request_keeps_store_witness :
  status (fst (handle (PostCalculateDelivery zero_distance_body) 1 used_db)) = 400
  /\ snd (handle (PostCalculateDelivery zero_distance_body) 1 used_db) = used_db.
Proof.
  split; [reflexivity |].
  apply (proj2 (failed_request_keeps_store
                  (PostCalculateDelivery zero_distance_body) 1 used_db)).
  vm_compute. discriminate.
Defined.

(** The update of the seeded row keeps its identifier. *)
Lemma update_coefficients_first_row_only_witness :
  exists c',
    delivery_coefficients
      (snd (update_coefficients (coefficients_form "0.3" "0.4" "4.0") 1 seeded_db))
    = c' :: []
    /\ coefficients_id c' = coefficients_id (default_coeffs 0 empty_db).
Proof.
  exact (@update_coefficients_first_row_only
           (coefficients_form "0.3" "0.4" "4.0") 1 seeded_db
           (default_coeffs 0 empty_db) [] eq_refl).
Defined.

(** The empty form after an update to 0.3, 0.4 and 4.0. *)
Lemma update_coefficients_empty_form_resets_witness :
  exists c,
    first (delivery_coefficients
             (snd (update_coefficients [] 2
                     (snd (update_coefficients
                             (coefficients_form "0.3" "0.4" "4.0") 1 seeded_db)))))
    = Some c
    /\ distance_coefficient c = 0.5%float
    /\ weight_coefficient c = 0.5%float
    /\ base_cost c = 5.0%float
    /\ updated_at c = 2.
Proof.
  exact (@update_coefficients_empty_form_resets [] 2
           (snd (update_coefficients (coefficients_form "0.3" "0.4" "4.0") 1
                   seeded_db))
           eq_refl eq_refl eq_refl).
Defined.



(** The invariants along the sample session. *)
Lemma coefficients_stay_non_negative_witness :
  Forall coefficients_valid
    (delivery_coefficients (serve sample_requests seeded_db)).
Proof.
  apply (@coefficients_stay_non_negative sample_requests seeded_db).
  constructor; [| constructor]. repeat split.
Defined.

Lemma stored_calculations_are_valid_witness :
  Forall calculation_valid
    (delivery_calculations (serve sample_requests seeded_db)).
Proof.
  apply (@stored_calculations_are_valid sample_requests seeded_db).
  constructor.
Defined.

Lemma stored_submissions_are_valid_witness :
  Forall submission_valid
    (contact_submissions (serve sample_requests seeded_db)).
Proof.
  apply (@stored_submissions_are_valid sample_requests seeded_db).
  constructor.
Defined.

Lemma identifiers_stay_unique_witness :
  unique_ids (serve sample_requests seeded_db).
Proof.
  apply (@identifiers_stay_unique sample_requests seeded_db).
  repeat split; repeat constructor. intros [].
Defined.

(** Row 2 of page 2 is row 22 of the sorted table. *)
Lemma listing_page_is_a_window_witness :
  nth_error (listed_calculations (admin_calculations (Some 2) (calculations_db 25))) 2 =
    nth_error (order_by_desc calculated_at
                 (delivery_calculations (calculations_db 25))) 22.
Proof.
  exact (proj1 (@listing_page_is_a_window (Some 2) (calculations_db 25) 2%nat
                  ltac:(repeat constructor))).
Defined.

(** Two pages show the 25 calculations. *)
Lemma listing_pages_cover_witness :
  Permutation
    (List.concat (map (fun k => listed_calculations
                             (admin_calculations (Some (Z.of_nat k))
                                (calculations_db 25)))
               (seq 1 2)))
    (delivery_calculations (calculations_db 25)).
Proof.
  apply (proj1 (proj2 (proj2 (listing_pages_cover (calculations_db 25) 2)))).
  vm_compute. repeat constructor.
Defined.

(** A Heroku address, a local file, and the default. *)
Lemma database_uri_scheme_witness :
  database_uri (Some "postgres://u:p@host/db") "sqlite:///jwfoods.db" =
    "postgresql://u:p@host/db"
  /\ database_uri (Some "mysql://host/db") "sqlite:///jwfoods.db" =
       "mysql://host/db"
  /\ database_uri None "sqlite:///jwfoods.db" = "sqlite:///jwfoods.db".
Proof.
  split; [| split].
  - exact (proj1 (database_uri_scheme (Some "postgres://u:p@host/db")
                    "sqlite:///jwfoods.db") "u:p@host/db" eq_refl).
  - exact (proj1 (proj2 (database_uri_scheme (Some "mysql://host/db")
                           "sqlite:///jwfoods.db"))
             "mysql://host/db" eq_refl eq_refl).
  - exact (proj1 (proj2 (proj2 (database_uri_scheme None
                                  "sqlite:///jwfoods.db")))
             eq_refl eq_refl).
Defined.
